(** * The stale-issue processor of [src/main.ts]

    A shallow embedding of the action's entry point: argument validation
    ([getAndValidateArgs]), the paginated decision loop ([processIssues]) and
    its four helpers ([issueHasActivitySinceStaleLabelWasApplied],
    [addStaleLabel], [removeStaleLabel], [closeIssue]).

    Conventions of the embedding.
    - A JavaScript [number] that the program only ever uses as an integer
      (budget, day counts, issue and page numbers) is a [Z]; the rounding of
      IEEE doubles beyond 2^53 is outside the model, and [NaN] appears only
      as the failure of [parseInt].
    - A timestamp is the instant it denotes, in milliseconds since the epoch
      (the API transports it as an ISO-8601 string).
    - Every call on the REST client is recorded, in order, in a log of
      [Call]s; what the remote side answers may depend on everything that was
      sent before.  Rejected promises (transport failures) abort the run in
      the source and are not part of the model: the answers below are those
      of calls that succeed.
    - [core.debug] output is not recorded. *)

From Stdlib Require Import ZArith List String Ascii Bool Lia.
Import ListNotations.

Local Open Scope string_scope.
Local Open Scope list_scope.
Local Open Scope Z_scope.

(** ** Data model *)

(** [Octokit.IssuesListCommentsResponseItem], reduced to the fields read. *)
Record Comment : Type := {
  user_type : string;      (* comment.user.type: "User" or "Bot" *)
  created_at : Z;
  body : string
}.

(** [Octokit.IssuesListForRepoResponseItem], reduced to the fields read here
    and by the helpers of ./utils.  [pull_request] is absent on a plain
    issue and carries the pull request's URL otherwise. *)
Record Issue : Type := {
  number : Z;
  title : string;
  updated_at : Z;
  pull_request : option string;
  labels : list string
}.

(** The [Args] type of the source. *)
Record Args : Type := {
  repoToken : string;
  DRY_RUN : bool;
  staleIssueMessage : string;
  stalePrMessage : string;
  daysBeforeStale : Z;
  daysBeforeClose : Z;
  staleIssueLabel : string;
  exemptIssueLabel : string;
  stalePrLabel : string;
  exemptPrLabel : string;
  operationsPerRun : Z
}.

(** ** Remote calls *)

(** One constructor per request the program can send.  The first three only
    read; the last four change the repository.  [LastAppliedStaleLabel]
    stands for the whole scan of an item's event history by
    [getDateOfLastAppliedStaleLabel], which the source counts as one
    operation however many requests it takes (comment of line 93). *)
Inductive Call : Type :=
| ListForRepo (page : Z)
| LastAppliedStaleLabel (issue_number : Z) (label : string)
| ListComments (issue_number : Z) (since : Z)
| CreateComment (issue_number : Z) (body : string)
| AddLabels (issue_number : Z) (labels : list string)
| RemoveLabel (issue_number : Z) (name : string)
| Update (issue_number : Z) (state : string).

Definition isMutation (c : Call) : bool :=
  match c with
  | ListForRepo _ | LastAppliedStaleLabel _ _ | ListComments _ _ => false
  | CreateComment _ _ | AddLabels _ _ | RemoveLabel _ _ | Update _ _ => true
  end.

Definition isLookup (c : Call) : bool := negb (isMutation c).

Definition mutations (log : list Call) : list Call := filter isMutation log.
Definition lookups (log : list Call) : list Call := filter isLookup log.

(** The issue a call is addressed to, if any. *)
Definition target (c : Call) : option Z :=
  match c with
  | ListForRepo _ => None
  | LastAppliedStaleLabel n _ | ListComments n _ | CreateComment n _
  | AddLabels n _ | RemoveLabel n _ | Update n _ => Some n
  end.

(** What the remote side answers to the read requests, given the log of
    everything sent so far. *)
Record Client : Type := {
  issues_listForRepo : list Call -> Z -> list Issue;
  issues_listComments : list Call -> Z -> Z -> list Comment
}.

(** The functions imported from ./utils, whose file is not among the
    sources: they are parameters of the development.  [isTrue] reads the
    textual dry-run flag; [isLabeled], [wasLastUpdatedBefore] and
    [appliedLabelBefore] are the three tests of the decision procedure (the
    last two compare with the time of the run, taken as one instant);
    [getDateOfLastAppliedStaleLabel] queries the remote side and is given
    the log like the client's own answers. *)
Record Utils : Type := {
  isTrue : string -> bool;
  isLabeled : Issue -> string -> bool;
  wasLastUpdatedBefore : Issue -> Z -> bool;
  appliedLabelBefore : Z -> Z -> bool;
  getDateOfLastAppliedStaleLabel : list Call -> Issue -> string -> Z
}.

(** ** The monad of remote interaction: a state monad over the log *)

Definition Remote (A : Type) : Type := list Call -> A * list Call.

Definition ret {A : Type} (a : A) : Remote A := fun log => (a, log).

Definition bind {A B : Type} (m : Remote A) (k : A -> Remote B) : Remote B :=
  fun log => let (a, log') := m log in k a log'.

(** [await] of a request: the answer is computed from the log as it stands,
    and the request is appended to it. *)
Definition await {A : Type} (answer : list Call -> A) (c : Call) : Remote A :=
  fun log => (answer log, log ++ [c]).

Declare Scope remote_scope.
Delimit Scope remote_scope with remote.
Notation "x <- m ;; k" := (bind m (fun x => k))
  (at level 100, m at next level, right associativity) : remote_scope.
Local Open Scope remote_scope.

(** ** JavaScript built-ins used by the source *)

(** Truthiness of a string: only the empty string is falsy. *)
Definition truthy (s : string) : bool := negb (String.eqb s "").

Definition hexDigit (n : N) : ascii :=
  match n with
  | 0%N => "0" | 1%N => "1" | 2%N => "2" | 3%N => "3" | 4%N => "4"
  | 5%N => "5" | 6%N => "6" | 7%N => "7" | 8%N => "8" | 9%N => "9"
  | 10%N => "A" | 11%N => "B" | 12%N => "C" | 13%N => "D" | 14%N => "E"
  | _ => "F"
  end%char.

Definition inRange (lo hi c : ascii) : bool :=
  (N_of_ascii lo <=? N_of_ascii c)%N && (N_of_ascii c <=? N_of_ascii hi)%N.

Definition isDecimalDigit (c : ascii) : bool := inRange "0" "9" c.

Definition isAlpha (c : ascii) : bool := inRange "a" "z" c || inRange "A" "Z" c.

(** The characters [encodeURIComponent] leaves alone. *)
Definition uriUnreserved (c : ascii) : bool :=
  isAlpha c || isDecimalDigit c
  || existsb (Ascii.eqb c) ["-"; "_"; "."; "!"; "~"; "*"; "'"; "("; ")"]%char.

(** [encodeURIComponent] on a string held as its UTF-8 bytes: every byte
    that is not unreserved becomes [%XX]. *)
Fixpoint encodeURIComponent (s : string) : string :=
  match s with
  | EmptyString => EmptyString
  | String c s' =>
      if uriUnreserved c then String c (encodeURIComponent s')
      else
        let n := N_of_ascii c in
        String "%" (String (hexDigit (n / 16)) (String (hexDigit (n mod 16))
          (encodeURIComponent s')))
  end.

(** ** The processor *)

Section Processor.

Variable client : Client.
Variable utils : Utils.

Definition isPullRequest (issue : Issue) : bool :=
  match pull_request issue with Some _ => true | None => false end.

(** The filter of line 158: the API answers "User" or "Bot" for the type. *)
Definition isUserComment (comment : Comment) : bool :=
  String.eqb (user_type comment) "User".

Definition issueHasActivitySinceStaleLabelWasApplied
    (issue : Issue) (staleLabelAppliedData : Z) : Remote bool :=
  comments <- await
    (fun log => issues_listComments client log (number issue) staleLabelAppliedData)
    (ListComments (number issue) staleLabelAppliedData) ;;
  let filtered := filter isUserComment comments in
  ret (0 <? List.length filtered)%nat.

Definition addStaleLabel
    (issue : Issue) (staleMessage staleLabel : string) (dryRun : bool) : Remote Z :=
  if negb dryRun then
    _ <- await (fun _ => tt) (CreateComment (number issue) staleMessage) ;;
    _ <- await (fun _ => tt) (AddLabels (number issue) [staleLabel]) ;;
    ret 2
  else ret 0.

Definition removeStaleLabel
    (issue : Issue) (staleLabel : string) (dryRun : bool) : Remote Z :=
  if negb dryRun then
    _ <- await (fun _ => tt)
           (RemoveLabel (number issue) (encodeURIComponent staleLabel)) ;;
    ret 1
  else ret 0.

Definition closeIssue
    (issue : Issue) (closeMessage : string) (dryRun : bool) : Remote Z :=
  if negb dryRun then
    _ <- await (fun _ => tt) (CreateComment (number issue) closeMessage) ;;
    _ <- await (fun _ => tt) (Update (number issue) "closed") ;;
    ret 2
  else ret 0.

(** How one iteration of the [for] loop of [processIssues] ends: by a
    [continue] statement, which skips the budget test at the bottom of the
    body, or by reaching that test with the budget as it then stands. *)
Inductive Iteration : Type :=
| ContinueStmt
| BudgetTest (operationsLeft : Z).

(** The role-specific choices of lines 75, 81 and 82. *)
Definition staleMessageOf (args : Args) (issue : Issue) : string :=
  if isPullRequest issue then stalePrMessage args else staleIssueMessage args.

Definition staleLabelOf (args : Args) (issue : Issue) : string :=
  if isPullRequest issue then stalePrLabel args else staleIssueLabel args.

Definition exemptLabelOf (args : Args) (issue : Issue) : string :=
  if isPullRequest issue then exemptPrLabel args else exemptIssueLabel args.

(** The test of line 84. *)
Definition isExempt (args : Args) (issue : Issue) : bool :=
  let exemptLabel := exemptLabelOf args issue in
  truthy exemptLabel && isLabeled utils issue exemptLabel.

(** The body of the loop, lines 72-132, up to the budget test. *)
Definition loopBody (args : Args) (operationsLeft : Z) (issue : Issue)
    : Remote Iteration :=
  let staleMessage := staleMessageOf args issue in
  if negb (truthy staleMessage) then ret ContinueStmt
  else
    let staleLabel := staleLabelOf args issue in
    if isExempt args issue then ret ContinueStmt
    else if isLabeled utils issue staleLabel then
      dateOfStaleLabelApplication <- await
        (fun log => getDateOfLastAppliedStaleLabel utils log issue staleLabel)
        (LastAppliedStaleLabel (number issue) staleLabel) ;;
      let operationsLeft := operationsLeft - 1 in
      wasThereUserActivitySinceThat <-
        issueHasActivitySinceStaleLabelWasApplied issue dateOfStaleLabelApplication ;;
      let operationsLeft := operationsLeft - 1 in
      if negb wasThereUserActivitySinceThat
         && appliedLabelBefore utils dateOfStaleLabelApplication (daysBeforeClose args)
      then
        charged <- closeIssue issue (stalePrMessage args) (DRY_RUN args) ;;
        ret (BudgetTest (operationsLeft - charged))
      else if wasThereUserActivitySinceThat then
        charged <- removeStaleLabel issue staleLabel (DRY_RUN args) ;;
        ret (BudgetTest (operationsLeft - charged))
      else ret (BudgetTest operationsLeft)
    else if wasLastUpdatedBefore utils issue (daysBeforeStale args) then
      charged <- addStaleLabel issue staleMessage staleLabel (DRY_RUN args) ;;
      ret (BudgetTest (operationsLeft - charged))
    else ret (BudgetTest operationsLeft).

(** What the two lookups of lines 88-101 answer for an item, when they are
    sent after [log]: the date the stale label was last applied, and the
    comments listed since that date. *)
Definition staleLabelDate (args : Args) (issue : Issue) (log : list Call) : Z :=
  getDateOfLastAppliedStaleLabel utils log issue (staleLabelOf args issue).

Definition commentsSince (args : Args) (issue : Issue) (log : list Call)
    : list Comment :=
  issues_listComments client
    (log ++ [LastAppliedStaleLabel (number issue) (staleLabelOf args issue)])
    (number issue) (staleLabelDate args issue log).

(** The budget once the iteration is over. *)
Definition budgetAfter (operationsLeft : Z) (it : Iteration) : Z :=
  match it with
  | ContinueStmt => operationsLeft
  | BudgetTest operationsLeft' => operationsLeft'
  end.

(** How the [for] loop over one page ends: by the [return 0] of line 138,
    or by running off the end of the page. *)
Inductive PageExit : Type :=
| Return0
| EndOfPage (operationsLeft : Z).

(** The [for] loop of lines 71-140. *)
Fixpoint forIssues (args : Args) (issues : list Issue) (operationsLeft : Z)
    : Remote PageExit :=
  match issues with
  | [] => ret (EndOfPage operationsLeft)
  | issue :: rest =>
      it <- loopBody args operationsLeft issue ;;
      match it with
      | ContinueStmt => forIssues args rest operationsLeft
      | BudgetTest operationsLeft' =>
          if operationsLeft' <=? 0 then ret Return0
          else forIssues args rest operationsLeft'
      end
  end.

(** [processIssues].  The recursion on the next page is bounded by [fuel],
    one unit per page fetched; [None] is a run cut short by the bound. *)
Fixpoint processIssues (fuel : nat) (args : Args) (operationsLeft : Z) (page : Z)
    : Remote (option Z) :=
  match fuel with
  | O => ret None
  | S fuel' =>
      issues <- await (fun log => issues_listForRepo client log page)
                      (ListForRepo page) ;;
      let operationsLeft := operationsLeft - 1 in
      if (List.length issues =? 0)%nat || (operationsLeft =? 0) then
        ret (Some operationsLeft)
      else
        exit <- forIssues args issues operationsLeft ;;
        match exit with
        | Return0 => ret (Some 0)
        | EndOfPage operationsLeft' =>
            processIssues fuel' args operationsLeft' (page + 1)
        end
  end.

End Processor.

(** ** Measures and modes used in the statements *)

(** What a stretch of log costs: one unit per lookup and, outside dry-run,
    one unit per mutation. *)
Definition charge (dryRun : bool) (new : list Call) : Z :=
  Z.of_nat (List.length (lookups new))
  + (if dryRun then 0 else Z.of_nat (List.length (mutations new))).

(** The remote side answers the read requests without regard to what was
    sent before: the repository does not change during the run. *)
Definition staticRemote (client : Client) (utils : Utils) : Prop :=
  (forall log log' page,
      issues_listForRepo client log page = issues_listForRepo client log' page)
  /\ (forall log log' n since,
      issues_listComments client log n since = issues_listComments client log' n since)
  /\ (forall log log' issue label,
      getDateOfLastAppliedStaleLabel utils log issue label
      = getDateOfLastAppliedStaleLabel utils log' issue label).

(** The same configuration with the dry-run flag set to [dryRun]. *)
Definition withDryRun (dryRun : bool) (args : Args) : Args :=
  {| repoToken := repoToken args;
     DRY_RUN := dryRun;
     staleIssueMessage := staleIssueMessage args;
     stalePrMessage := stalePrMessage args;
     daysBeforeStale := daysBeforeStale args;
     daysBeforeClose := daysBeforeClose args;
     staleIssueLabel := staleIssueLabel args;
     exemptIssueLabel := exemptIssueLabel args;
     stalePrLabel := stalePrLabel args;
     exemptPrLabel := exemptPrLabel args;
     operationsPerRun := operationsPerRun args |}.

(** ** Configuration *)

(** A synchronous computation that may [throw]. *)
Inductive Result (A : Type) : Type :=
| Ok (value : A)
| Throw (message : string).
Arguments Ok {A} value.
Arguments Throw {A} message.

Definition bindResult {A B : Type} (r : Result A) (k : A -> Result B) : Result B :=
  match r with
  | Ok a => k a
  | Throw m => Throw m
  end.

Notation "x <~ r ;; k" := (bindResult r (fun x => k))
  (at level 100, r at next level, right associativity) : remote_scope.

(** White space as [String.prototype.trim] and [parseInt] skip it: the
    WhiteSpace and LineTerminator characters of ECMAScript, on a string held
    as its UTF-8 bytes (as [encodeURIComponent] above).  In one byte: TAB,
    LF, VT, FF, CR and SPACE. *)
Definition oneByteWhiteSpace (a : ascii) : bool :=
  let x := N_of_ascii a in
  ((9 <=? x) && (x <=? 13) || (x =? 32))%N.

(** In two bytes: the no-break space U+00A0, that is C2 A0. *)
Definition twoByteWhiteSpace (a b : ascii) : bool :=
  ((N_of_ascii a =? 194) && (N_of_ascii b =? 160))%N.

(** In three bytes: U+1680 (E1 9A 80); U+2000 to U+200A, the line and
    paragraph separators U+2028 and U+2029, and U+202F (E2 80 80 to 8A, A8,
    A9, AF); U+205F (E2 81 9F); U+3000 (E3 80 80); and the byte order mark
    U+FEFF (EF BB BF). *)
Definition threeByteWhiteSpace (a b c : ascii) : bool :=
  let x := N_of_ascii a in
  let y := N_of_ascii b in
  let z := N_of_ascii c in
  ((x =? 225) && (y =? 154) && (z =? 128)
   || (x =? 226) && (y =? 128)
      && ((128 <=? z) && (z <=? 138) || (z =? 168) || (z =? 169) || (z =? 175))
   || (x =? 226) && (y =? 129) && (z =? 159)
   || (x =? 227) && (y =? 128) && (z =? 128)
   || (x =? 239) && (y =? 187) && (z =? 191))%N.

(** Whether [s] begins with a white-space character. *)
Definition startsWithWhiteSpace (s : string) : bool :=
  match s with
  | EmptyString => false
  | String a r =>
      oneByteWhiteSpace a
      || match r with
         | EmptyString => false
         | String b r2 =>
             twoByteWhiteSpace a b
             || match r2 with
                | EmptyString => false
                | String c _ => threeByteWhiteSpace a b c
                end
         end
  end.

Fixpoint trimStart (s : string) : string :=
  match s with
  | EmptyString => EmptyString
  | String a r =>
      if oneByteWhiteSpace a then trimStart r
      else
        match r with
        | EmptyString => s
        | String b r2 =>
            if twoByteWhiteSpace a b then trimStart r2
            else
              match r2 with
              | EmptyString => s
              | String c r3 =>
                  if threeByteWhiteSpace a b c then trimStart r3 else s
              end
        end
  end.

(** A string made of white space only. *)
Definition isBlank (s : string) : bool :=
  match trimStart s with
  | EmptyString => true
  | String _ _ => false
  end.

(** The white space at the end is what remains, byte after byte, once what
    follows is blank: in UTF-8 no white-space character begins with a
    continuation byte, so that the cut falls between two characters. *)
Fixpoint trimEnd (s : string) : string :=
  match s with
  | EmptyString => EmptyString
  | String c s' => if isBlank s then EmptyString else String c (trimEnd s')
  end.

Definition trim (s : string) : string := trimEnd (trimStart s).

(** The value of a digit of radix up to 16. *)
Definition digitValue (c : ascii) : option Z :=
  let n := Z.of_N (N_of_ascii c) in
  if inRange "0" "9" c then Some (n - 48)
  else if inRange "a" "f" c then Some (n - 87)
  else if inRange "A" "F" c then Some (n - 55)
  else None.

(** The value of the longest prefix of [s] made of digits of the radix,
    continuing from [acc]; [acc] starts as [None], which is what remains
    when there is no digit at all. *)
Fixpoint parseDigits (radix : Z) (s : string) (acc : option Z) : option Z :=
  match s with
  | EmptyString => acc
  | String c s' =>
      match digitValue c with
      | Some d =>
          if d <? radix then
            parseDigits radix s'
              (Some (radix * match acc with Some a => a | None => 0 end + d))
          else acc
      | None => acc
      end
  end.

(** The sign in front of the digits, and what follows it. *)
Definition readSign (s : string) : Z * string :=
  match s with
  | String c s' =>
      if Ascii.eqb c "-" then (-1, s')
      else if Ascii.eqb c "+" then (1, s')
      else (1, s)
  | EmptyString => (1, s)
  end.

(** The radix: 16 after a [0x] or [0X] prefix, which is dropped, and 10
    otherwise. *)
Definition readRadix (s : string) : Z * string :=
  match s with
  | String c (String d s') =>
      if Ascii.eqb c "0" && (Ascii.eqb d "x" || Ascii.eqb d "X") then (16, s')
      else (10, s)
  | _ => (10, s)
  end.

Definition parseUnsigned (s : string) : option Z :=
  let '(radix, digits) := readRadix s in
  parseDigits radix digits None.

Definition parseSigned (s : string) : option Z :=
  let '(sign, rest) := readSign s in
  option_map (Z.mul sign) (parseUnsigned rest).

(** [parseInt(string)] with no radix argument; [None] is [NaN].  Leading
    white space is skipped, a sign is read, a [0x] or [0X] prefix selects
    radix 16, and whatever follows the digits is ignored.  The result is the
    integer read, without the rounding to a double. *)
Definition parseInt (s : string) : option Z := parseSigned (trimStart s).

Definition isNaN (n : option Z) : bool :=
  match n with None => true | Some _ => false end.

(** The inputs of the action: for each input name, the text the workflow
    supplies, the empty string when it supplies none. *)
Definition Inputs : Type := string -> string.

(** [core.getInput(name, {required})] of the actions toolkit. *)
Definition getInput (inputs : Inputs) (name : string) (required : bool)
    : Result string :=
  let val := inputs name in
  if required && negb (truthy val) then
    Throw ("Input required and not supplied: " ++ name)
  else Ok (trim val).

(** How a run ends: [core.setFailed] records the message and makes the
    process exit with status 1. *)
Inductive Outcome : Type :=
| Succeeded
| Failed (message : string)
| Unfinished.

Definition exitCode (o : Outcome) : option Z :=
  match o with
  | Succeeded => Some 0
  | Failed _ => Some 1
  | Unfinished => None
  end.

Section Action.

Variable client : Client.
Variable utils : Utils.
Variable inputs : Inputs.

(** The loop of lines 267-275 over the names of the numeric inputs. *)
Fixpoint checkNumberInputs (names : list string) : Result unit :=
  match names with
  | [] => Ok tt
  | numberInput :: rest =>
      text <~ getInput inputs numberInput false ;;
      if isNaN (parseInt text) then
        Throw ("input " ++ numberInput ++ " did not parse to a valid integer")
      else checkNumberInputs rest
  end.

(** [getAndValidateArgs].  The object literal is evaluated field by field,
    in order, so that the first missing required input throws; the numeric
    fields hold the result of [parseInt], which the loop then re-checks.
    The last [match] only moves the three numbers, which the loop has
    found not to be [NaN], into [Args]: its catch-all branch is never
    taken (see [getAndValidateArgs_message]). *)
Definition getAndValidateArgs : Result Args :=
  repoToken <~ getInput inputs "repo-token" true ;;
  DRY_RUN <~ getInput inputs "DRY_RUN" false ;;
  staleIssueMessage <~ getInput inputs "stale-issue-message" false ;;
  stalePrMessage <~ getInput inputs "stale-pr-message" false ;;
  daysBeforeStale <~ getInput inputs "days-before-stale" true ;;
  daysBeforeClose <~ getInput inputs "days-before-close" true ;;
  staleIssueLabel <~ getInput inputs "stale-issue-label" true ;;
  exemptIssueLabel <~ getInput inputs "exempt-issue-label" false ;;
  stalePrLabel <~ getInput inputs "stale-pr-label" true ;;
  exemptPrLabel <~ getInput inputs "exempt-pr-label" false ;;
  operationsPerRun <~ getInput inputs "operations-per-run" true ;;
  _ <~ checkNumberInputs
         ["days-before-stale"; "days-before-close"; "operations-per-run"] ;;
  match parseInt daysBeforeStale, parseInt daysBeforeClose,
        parseInt operationsPerRun with
  | Some stale, Some close, Some operations =>
      Ok {| repoToken := repoToken;
            DRY_RUN := isTrue utils DRY_RUN;
            staleIssueMessage := staleIssueMessage;
            stalePrMessage := stalePrMessage;
            daysBeforeStale := stale;
            daysBeforeClose := close;
            staleIssueLabel := staleIssueLabel;
            exemptIssueLabel := exemptIssueLabel;
            stalePrLabel := stalePrLabel;
            exemptPrLabel := exemptPrLabel;
            operationsPerRun := operations |}
  | _, _, _ => Throw "NaN"
  end.

(** [run]: the arguments are validated before the client is built, and
    whatever is thrown ends in [core.setFailed]. *)
Definition run (fuel : nat) : Outcome * list Call :=
  match getAndValidateArgs with
  | Throw message => (Failed message, [])
  | Ok args =>
      let '(result, log) :=
        processIssues client utils fuel args (operationsPerRun args) 1 [] in
      (match result with Some _ => Succeeded | None => Unfinished end, log)
  end.

End Action.

(** ** A concrete repository and concrete helpers

    Used to run the processor on explicit inputs. *)

Module Sample.

Definition msPerDay : Z := 1000 * 60 * 60 * 24.

(** A label-added event of an issue's history. *)
Record LabeledEvent : Type := {
  event_issue : Z;
  event_label : string;
  event_at : Z
}.

(** A repository as the remote side holds it, for a run during which it
    does not change: the pages of open items, the label-added events, the
    comments of each item, and the time of the run. *)
Record Repository : Type := {
  pages : list (list Issue);
  events : list LabeledEvent;
  comments : list (Z * Comment);
  now : Z
}.

(** Modelled from the spec: the REST endpoints behind the client are not
    part of the sources.  A page is one of the repository's pages, empty
    past the last; [listComments] gives the comments of the item "posted
    at/after [since]". *)
Definition client (r : Repository) : Client :=
  {| issues_listForRepo := fun _ page =>
       if page <=? 0 then [] else nth (Z.to_nat (page - 1)) (pages r) [];
     issues_listComments := fun _ issue_number since =>
       map snd
         (filter (fun c => (fst c =? issue_number) && (since <=? created_at (snd c)))
                 (comments r)) |}.

(** Modelled from the spec: ./utils is not among the sources.  The dry-run
    flag is "parsed from a truthy/falsy textual input". *)
Definition isTrue (s : string) : bool := String.eqb s "true".

(** Modelled from the spec: ./utils is not among the sources.  A label is
    "present on the item" when its name is among the item's labels. *)
Definition isLabeled (issue : Issue) (label : string) : bool :=
  existsb (String.eqb label) (labels issue).

(** Modelled from the spec: ./utils is not among the sources.  The item's
    "last-updated timestamp is at least [days] days old". *)
Definition wasLastUpdatedBefore (r : Repository) (issue : Issue) (days : Z) : bool :=
  days * msPerDay <=? now r - updated_at issue.

(** Modelled from the spec: ./utils is not among the sources.  The
    application of the label is "older than [days] days". *)
Definition appliedLabelBefore (r : Repository) (date : Z) (days : Z) : bool :=
  days * msPerDay <? now r - date.

(** Modelled from the spec: ./utils is not among the sources.  The latest
    of the "label-added events matching the stale label name" in the
    item's history (0 when there is none). *)
Definition getDateOfLastAppliedStaleLabel
    (r : Repository) (issue : Issue) (label : string) : Z :=
  fold_right Z.max 0
    (map event_at
       (filter (fun e => (event_issue e =? number issue)
                         && String.eqb (event_label e) label)
               (events r))).

Definition utils (r : Repository) : Utils :=
  Build_Utils isTrue isLabeled (wasLastUpdatedBefore r) (appliedLabelBefore r)
              (fun _ => getDateOfLastAppliedStaleLabel r).

Definition day (n : Z) : Z := n * msPerDay.

(** The configuration used by the examples: thresholds of 30 days,
    different messages and labels for issues and pull requests. *)
Definition args (dryRun : bool) (operations : Z) : Args :=
  {| repoToken := "token";
     DRY_RUN := dryRun;
     staleIssueMessage := "This issue is stale";
     stalePrMessage := "This pull request is stale";
     daysBeforeStale := 30;
     daysBeforeClose := 30;
     staleIssueLabel := "stale";
     exemptIssueLabel := "pinned";
     stalePrLabel := "stale pr?";
     exemptPrLabel := "wip";
     operationsPerRun := operations |}.

(** Item 1: a plain issue, no labels, last updated 40 days before the run. *)
Definition issue1 : Issue :=
  {| number := 1; title := "quiet issue"; updated_at := day 60;
     pull_request := None; labels := [] |}.

(** Item 2: a pull request, stale label applied 10 days before the run, a
    human comment 2 days before the run. *)
Definition issue2 : Issue :=
  {| number := 2; title := "revived pull request"; updated_at := day 98;
     pull_request := Some "https://api.github.com/repos/o/r/pulls/2";
     labels := ["stale pr?"] |}.

(** Item 3: a plain issue, stale label applied 40 days before the run, only
    a bot's comment since. *)
Definition issue3 : Issue :=
  {| number := 3; title := "abandoned issue"; updated_at := day 60;
     pull_request := None; labels := ["stale"] |}.

(** Item 4: like item 3, and pinned. *)
Definition issue4 : Issue :=
  {| number := 4; title := "pinned issue"; updated_at := day 60;
     pull_request := None; labels := ["stale"; "pinned"] |}.

(** Item 5: a pull request, no labels, last updated 40 days before the run. *)
Definition issue5 : Issue :=
  {| number := 5; title := "quiet pull request"; updated_at := day 60;
     pull_request := Some "https://api.github.com/repos/o/r/pulls/5";
     labels := [] |}.

(** The same configuration with the feature switched off for pull requests:
    no stale message for them. *)
Definition argsWithoutPrMessage (dryRun : bool) (operations : Z) : Args :=
  {| repoToken := "token";
     DRY_RUN := dryRun;
     staleIssueMessage := "This issue is stale";
     stalePrMessage := "";
     daysBeforeStale := 30;
     daysBeforeClose := 30;
     staleIssueLabel := "stale";
     exemptIssueLabel := "pinned";
     stalePrLabel := "stale pr?";
     exemptPrLabel := "wip";
     operationsPerRun := operations |}.

(** The inputs of a workflow, with the given text for the budget. *)
Definition inputs (operations : string) : Inputs :=
  fun name =>
    match find (fun kv => String.eqb (fst kv) name)
               [ ("repo-token", "token");
                 ("DRY_RUN", "false");
                 ("stale-issue-message", "This issue is stale");
                 ("stale-pr-message", "This pull request is stale");
                 ("days-before-stale", " 30 ");
                 ("days-before-close", "30");
                 ("stale-issue-label", "stale");
                 ("exempt-issue-label", "pinned");
                 ("stale-pr-label", "stale pr?");
                 ("exempt-pr-label", "wip");
                 ("operations-per-run", operations) ] with
    | Some kv => snd kv
    | None => ""
    end.

(** Item 6: a pull request, stale label applied 50 days before the run, no
    comment since. *)
Definition issue6 : Issue :=
  {| number := 6; title := "abandoned pull request"; updated_at := day 50;
     pull_request := Some "https://api.github.com/repos/o/r/pulls/6";
     labels := ["stale pr?"] |}.

(** Item 7: like item 2, and marked as work in progress. *)
Definition issue7 : Issue :=
  {| number := 7; title := "revived draft"; updated_at := day 98;
     pull_request := Some "https://api.github.com/repos/o/r/pulls/7";
     labels := ["wip"; "stale pr?"] |}.

Definition repository (pages : list (list Issue)) : Repository :=
  {| pages := pages;
     events :=
       [ {| event_issue := 2; event_label := "stale pr?"; event_at := day 90 |};
         {| event_issue := 3; event_label := "stale"; event_at := day 20 |};
         {| event_issue := 3; event_label := "stale"; event_at := day 60 |};
         {| event_issue := 4; event_label := "stale"; event_at := day 60 |};
         {| event_issue := 6; event_label := "stale pr?"; event_at := day 50 |};
         {| event_issue := 7; event_label := "stale pr?"; event_at := day 90 |} ];
     comments :=
       [ (2, {| user_type := "User"; created_at := day 98; body := "still needed" |});
         (3, {| user_type := "User"; created_at := day 50; body := "any news?" |});
         (3, {| user_type := "Bot"; created_at := day 60; body := "This issue is stale" |});
         (7, {| user_type := "User"; created_at := day 98; body := "not yet" |}) ];
     now := day 100 |}.

(** The five items on one page. *)
Definition everything : Repository :=
  repository [[issue1; issue2; issue3; issue4; issue5]].

(** A run of the processor as [run] starts it (line 44), on the repository
    with the given pages. *)
Definition process (pages : list (list Issue)) (a : Args) : option Z * list Call :=
  processIssues (client (repository pages)) (utils (repository pages))
                10 a (operationsPerRun a) 1 [].

End Sample.

(** ** Further measures and cases *)

(** The page fetches of a stretch of log. *)
Definition isFetch (c : Call) : bool :=
  match c with
  | ListForRepo _ => true
  | _ => false
  end.

Definition fetches (log : list Call) : list Call := filter isFetch log.

(** The consecutive fetches of [count] pages from [page] on. *)
Definition fetchesFrom (page : Z) (count : nat) : list Call :=
  map (fun i => ListForRepo (page + Z.of_nat i)) (seq 0 count).

(** The mutations the configuration provides for: a comment carrying one of
    the two stale messages, the addition of one of the two stale labels
    alone, the removal of one of the two stale labels (escaped), and the
    transition to the closed state.  Lookups are not constrained. *)
Definition isConfigured (args : Args) (c : Call) : Prop :=
  match c with
  | CreateComment _ body =>
      body = staleIssueMessage args \/ body = stalePrMessage args
  | AddLabels _ labels =>
      labels = [staleIssueLabel args] \/ labels = [stalePrLabel args]
  | RemoveLabel _ name =>
      name = encodeURIComponent (staleIssueLabel args)
      \/ name = encodeURIComponent (stalePrLabel args)
  | Update _ state => state = "closed"
  | ListForRepo _ | LastAppliedStaleLabel _ _ | ListComments _ _ => True
  end.

(** A request is about an item that some page listed and that the loop does
    not pass over: its role has a stale message and it is not exempt. *)
Definition aboutEligibleItem (client : Client) (utils : Utils) (args : Args)
    (c : Call) : Prop :=
  match target c with
  | None => True
  | Some n =>
      exists log page issue,
        In issue (issues_listForRepo client log page)
        /\ number issue = n
        /\ truthy (staleMessageOf args issue) = true
        /\ isExempt utils args issue = false
  end.

(** The characters of a string. *)
Fixpoint characters (s : string) : list ascii :=
  match s with
  | EmptyString => []
  | String c s' => c :: characters s'
  end.

(** The names of the inputs read with [required: true]. *)
Definition requiredInputs : list string :=
  ["repo-token"; "days-before-stale"; "days-before-close";
   "stale-issue-label"; "stale-pr-label"; "operations-per-run"].

(** The names of the inputs of the loop of lines 267-275, in its order. *)
Definition numberInputs : list string :=
  ["days-before-stale"; "days-before-close"; "operations-per-run"].

(** Two more items and a repository holding them, for the cases in which
    nothing is done. *)
Module Cases.

(** Item 8: a plain issue, stale label applied 5 days before the run, no
    comment since. *)
Definition issue8 : Issue :=
  {| number := 8; title := "recently stale"; updated_at := Sample.day 95;
     pull_request := None; labels := ["stale"] |}.

(** Item 9: a plain issue, no labels, last updated the day before the run. *)
Definition issue9 : Issue :=
  {| number := 9; title := "active issue"; updated_at := Sample.day 99;
     pull_request := None; labels := [] |}.

Definition repository : Sample.Repository :=
  {| Sample.pages := [[issue8; issue9]];
     Sample.events :=
       [ {| Sample.event_issue := 8; Sample.event_label := "stale";
            Sample.event_at := Sample.day 95 |} ];
     Sample.comments := [];
     Sample.now := Sample.day 100 |}.

(** The no-break space U+00A0 and the byte order mark U+FEFF, in UTF-8. *)
Definition noBreakSpace : string :=
  String (ascii_of_N 194) (String (ascii_of_N 160) "").

Definition byteOrderMark : string :=
  String (ascii_of_N 239) (String (ascii_of_N 187) (String (ascii_of_N 191) "")).

(** Inputs whose first day count is padded with a no-break space and a byte
    order mark, and whose second day count is [close]. *)
Definition inputsWithPaddedDays (close : string) : Inputs :=
  fun name =>
    if String.eqb name "days-before-stale"
    then (noBreakSpace ++ "30" ++ byteOrderMark)%string
    else if String.eqb name "days-before-close" then close
    else Sample.inputs "10" name.

(** Inputs with no token. *)
Definition inputsWithoutToken : Inputs :=
  fun name => if String.eqb name "repo-token" then "" else Sample.inputs "10" name.

(** Inputs whose two day counts are both spelled out in letters. *)
Definition inputsWithDaysInLetters : Inputs :=
  fun name =>
    if String.eqb name "days-before-stale" then "thirty"
    else if String.eqb name "days-before-close" then "sixty"
    else Sample.inputs "10" name.

End Cases.

(** * Properties *)

(** ** The log only grows, and how it grows in one iteration *)

Ltac run_remote :=
  unfold issueHasActivitySinceStaleLabelWasApplied, closeIssue,
         removeStaleLabel, addStaleLabel, bind, await, ret.

Ltac split_ifs :=
  repeat match goal with
         | |- context [if ?b then _ else _] => destruct b eqn:?
         end.

Lemma mutations_app (l1 l2 : list Call) :
  mutations (l1 ++ l2) = mutations l1 ++ mutations l2.
Proof. apply filter_app. Qed.

Lemma lookups_app (l1 l2 : list Call) :
  lookups (l1 ++ l2) = lookups l1 ++ lookups l2.
Proof. apply filter_app. Qed.

Lemma length_split_calls (l : list Call) :
  List.length l = (List.length (lookups l) + List.length (mutations l))%nat.
Proof.
  induction l as [|c l IH]; simpl; [reflexivity|].
  unfold isLookup; destruct (isMutation c); simpl; lia.
Qed.

Section ProcessorFacts.

Variable client : Client.
Variable utils : Utils.

Local Abbreviation loopBody := (loopBody client utils).
Local Abbreviation forIssues := (forIssues client utils).
Local Abbreviation processIssues := (processIssues client utils).
Local Abbreviation staleLabelDate := (staleLabelDate utils).
Local Abbreviation commentsSince := (commentsSince client utils).

(** What one iteration adds to the log: requests about the item at hand
    only, at most two of them mutations and none in dry-run, and the budget
    goes down by the cost of what was sent. *)
Lemma loopBody_log (args : Args) (operationsLeft : Z) (issue : Issue)
      (log : list Call) :
  exists new,
    snd (loopBody args operationsLeft issue log) = log ++ new
    /\ Forall (fun c => target c = Some (number issue)) new
    /\ (List.length (mutations new) <= 2)%nat
    /\ (DRY_RUN args = true -> mutations new = [])
    /\ (fst (loopBody args operationsLeft issue log) = ContinueStmt -> new = [])
    /\ budgetAfter operationsLeft (fst (loopBody args operationsLeft issue log))
       = operationsLeft - charge (DRY_RUN args) new.
Proof.
  unfold loopBody, charge; run_remote.
  destruct (DRY_RUN args) eqn:Hdry; split_ifs; simpl;
    rewrite <- ?app_assoc; simpl;
    eexists; (split; [reflexivity || (symmetry; apply app_nil_r)|]);
    simpl; repeat split; try (repeat constructor); try lia;
    try discriminate; try reflexivity.
Qed.

Lemma charge_app (dryRun : bool) (l1 l2 : list Call) :
  charge dryRun (l1 ++ l2) = charge dryRun l1 + charge dryRun l2.
Proof.
  unfold charge. rewrite lookups_app, mutations_app, !length_app, !Nat2Z.inj_add.
  destruct dryRun; lia.
Qed.

Lemma charge_mutations (dryRun : bool) (l : list Call) :
  (dryRun = true -> mutations l = []) ->
  Z.of_nat (List.length (mutations l)) <= charge dryRun l.
Proof.
  unfold charge. intros H. destruct dryRun; [rewrite H by reflexivity; simpl|]; lia.
Qed.

(** ** The budget along a page and along a run *)

(** The loop over a page appends to the log and sends no mutation in
    dry-run.  It leaves the page with the budget less the cost of what it
    sent, or returns 0 when that is not positive.  Entered with a positive
    budget, it either leaves the page with a positive budget, or returns 0
    having overdrawn by the last item only. *)
Lemma forIssues_budget (args : Args) (issues : list Issue) :
  forall (operationsLeft : Z) (log : list Call),
  exists new,
    snd (forIssues args issues operationsLeft log) = log ++ new
    /\ (DRY_RUN args = true -> mutations new = [])
    /\ match fst (forIssues args issues operationsLeft log) with
       | EndOfPage operationsLeft' =>
           operationsLeft' = operationsLeft - charge (DRY_RUN args) new
       | Return0 => operationsLeft - charge (DRY_RUN args) new <= 0
       end
    /\ (1 <= operationsLeft ->
        match fst (forIssues args issues operationsLeft log) with
        | EndOfPage operationsLeft' => 1 <= operationsLeft'
        | Return0 =>
            Z.of_nat (List.length (mutations new)) <= operationsLeft + 1
        end).
Proof.
  induction issues as [|issue rest IH]; intros ops log.
  - exists []. simpl. rewrite app_nil_r. unfold charge. simpl.
    destruct (DRY_RUN args); repeat split; simpl; lia.
  - simpl. unfold bind.
    destruct (loopBody_log args ops issue log)
      as (new1 & Hlog & _ & Hmax & Hdry & Hcont & Hcharge).
    destruct (loopBody args ops issue log) as [it log1]; simpl in *; subst log1.
    pose proof (charge_mutations (DRY_RUN args) new1 Hdry) as Hpay.
    destruct it as [|ops1]; simpl in Hcharge.
    + rewrite (Hcont eq_refl), app_nil_r. apply IH.
    + destruct (ops1 <=? 0) eqn:Hle.
      * apply Z.leb_le in Hle.
        exists new1. simpl. repeat split; auto; lia.
      * apply Z.leb_gt in Hle.
        destruct (IH ops1 (log ++ new1)) as (new2 & Hlog2 & Hdry2 & Hch2 & Hbud2).
        pose proof (charge_mutations (DRY_RUN args) new2 Hdry2) as Hpay2.
        exists (new1 ++ new2). rewrite Hlog2, app_assoc.
        split; [reflexivity|]. split.
        { intros Hd. rewrite mutations_app, Hdry, Hdry2 by assumption. reflexivity. }
        rewrite charge_app.
        split.
        { destruct (fst (forIssues args rest ops1 (log ++ new1))); lia. }
        intros Hpos. specialize (Hbud2 ltac:(lia)).
        rewrite mutations_app, length_app, Nat2Z.inj_add.
        destruct (fst (forIssues args rest ops1 (log ++ new1))); lia.
Qed.

(** A run appends to the log and sends no mutation in dry-run.  What it
    returns is the budget less the cost of what it sent, or 0 when that is
    not positive.  Started with a positive budget it sends no more mutations
    than the budget, and what it returns is not negative. *)
Lemma processIssues_budget (args : Args) (fuel : nat) :
  forall (operationsLeft page : Z) (log : list Call),
  exists new,
    snd (processIssues fuel args operationsLeft page log) = log ++ new
    /\ (DRY_RUN args = true -> mutations new = [])
    /\ (forall v, fst (processIssues fuel args operationsLeft page log) = Some v ->
          v = operationsLeft - charge (DRY_RUN args) new
          \/ (v = 0 /\ operationsLeft - charge (DRY_RUN args) new <= 0))
    /\ (1 <= operationsLeft ->
        Z.of_nat (List.length (mutations new)) <= operationsLeft
        /\ forall v, fst (processIssues fuel args operationsLeft page log) = Some v ->
                     0 <= v).
Proof.
  induction fuel as [|fuel IH]; intros ops page log.
  - exists []. simpl. rewrite app_nil_r.
    repeat split; simpl; try lia; discriminate.
  - simpl. unfold bind, await.
    assert (Hfetch : forall d, charge d [ListForRepo page] = 1).
    { intros []; reflexivity. }
    destruct ((List.length (issues_listForRepo client log page) =? 0)%nat
              || (ops - 1 =? 0)) eqn:Hstop.
    + exists [ListForRepo page]. simpl. rewrite Hfetch.
      repeat split; simpl; try lia; intros v Hv; injection Hv as <-; lia.
    + apply orb_false_iff in Hstop. destruct Hstop as [_ Hne]. apply Z.eqb_neq in Hne.
      destruct (forIssues_budget args (issues_listForRepo client log page) (ops - 1)
                  (log ++ [ListForRepo page])) as (new1 & Hlog1 & Hdry1 & Hch1 & Hbud1).
      pose proof (charge_mutations (DRY_RUN args) new1 Hdry1) as Hpay1.
      destruct (forIssues args (issues_listForRepo client log page) (ops - 1)
                  (log ++ [ListForRepo page])) as [exit log1]; simpl in *; subst log1.
      destruct exit as [|ops1].
      * exists (ListForRepo page :: new1). simpl. rewrite <- app_assoc. simpl.
        split; [reflexivity|]. split; [exact Hdry1|].
        change (ListForRepo page :: new1) with ([ListForRepo page] ++ new1).
        rewrite charge_app, Hfetch.
        split.
        { intros v Hv. injection Hv as <-. right. lia. }
        intros Hpos. specialize (Hbud1 ltac:(lia)).
        change (mutations ([ListForRepo page] ++ new1)) with (mutations new1).
        split; [lia|].
        intros v Hv. injection Hv as <-. lia.
      * destruct (IH ops1 (page + 1) ((log ++ [ListForRepo page]) ++ new1))
          as (new2 & Hlog2 & Hdry2 & Hch2 & Hbud2).
        pose proof (charge_mutations (DRY_RUN args) new2 Hdry2) as Hpay2.
        exists ([ListForRepo page] ++ new1 ++ new2).
        split; [rewrite Hlog2, <- !app_assoc; reflexivity|]. split.
        { intros Hd.
          change (mutations ([ListForRepo page] ++ new1 ++ new2))
            with (mutations (new1 ++ new2)).
          rewrite mutations_app, Hdry1, Hdry2 by assumption. reflexivity. }
        rewrite !charge_app, Hfetch.
        split.
        { intros v Hv. destruct (Hch2 v Hv) as [->|[-> Hneg]]; [left|right]; lia. }
        intros Hpos. specialize (Hbud1 ltac:(lia)). specialize (Hbud2 ltac:(lia)).
        destruct Hbud2 as [Hmut2 Hres].
        split; [|exact Hres].
        change (mutations ([ListForRepo page] ++ new1 ++ new2))
          with (mutations (new1 ++ new2)).
        rewrite mutations_app, length_app, Nat2Z.inj_add. lia.
Qed.

(** With a positive budget the recursion is at most as deep as the budget:
    that much fuel gives a result. *)
Lemma processIssues_terminates (args : Args) (fuel : nat) :
  forall (operationsLeft page : Z) (log : list Call),
    1 <= operationsLeft ->
    (Z.to_nat operationsLeft <= fuel)%nat ->
    exists v, fst (processIssues fuel args operationsLeft page log) = Some v.
Proof.
  induction fuel as [|fuel IH]; intros ops page log Hpos Hfuel; [lia|].
  simpl. unfold bind, await.
  destruct ((List.length (issues_listForRepo client log page) =? 0)%nat
            || (ops - 1 =? 0)) eqn:Hstop.
  - eexists; reflexivity.
  - apply orb_false_iff in Hstop. destruct Hstop as [_ Hne]. apply Z.eqb_neq in Hne.
    destruct (forIssues_budget args (issues_listForRepo client log page) (ops - 1)
                (log ++ [ListForRepo page])) as (new1 & _ & Hdry1 & Hch1 & Hbud1).
    specialize (Hbud1 ltac:(lia)).
    pose proof (charge_mutations (DRY_RUN args) new1 Hdry1) as Hpay1.
    destruct (forIssues args (issues_listForRepo client log page) (ops - 1)
                (log ++ [ListForRepo page])) as [exit log1]; simpl in *.
    destruct exit as [|ops1]; [eexists; reflexivity|].
    apply IH; lia.
Qed.

(** ** What happens to one item *)

(** C7.  An item on which the configured, non-empty exempt label of its role
    is present is passed over: its iteration ends in [continue] with the log
    as it was, so nothing is sent about it and nothing is charged, and the
    loop goes on with the rest of the page on the same budget.  Neither the
    stale label nor the age of the item is consulted: the statement holds
    whatever [isLabeled] says of the stale label and whatever
    [wasLastUpdatedBefore] answers. *)
Theorem exempt_item_is_left_alone
    (args : Args) (operationsLeft : Z) (issue : Issue) (rest : list Issue)
    (log : list Call) :
  truthy (exemptLabelOf args issue) = true ->
  isLabeled utils issue (exemptLabelOf args issue) = true ->
  loopBody args operationsLeft issue log = (ContinueStmt, log)
  /\ forIssues args (issue :: rest) operationsLeft log
     = forIssues args rest operationsLeft log.
Proof.
  intros Hset Hlabeled.
  assert (Hbody : loopBody args operationsLeft issue log = (ContinueStmt, log)).
  { unfold loopBody, isExempt. rewrite Hset, Hlabeled. simpl.
    destruct (negb (truthy (staleMessageOf args issue))); reflexivity. }
  split; [exact Hbody|].
  simpl. unfold bind. rewrite Hbody. reflexivity.
Qed.

(** C4, amended.  An item whose role has a non-empty stale message, which is
    not exempt, which carries the stale label, for which the remote side
    lists no comment of a user since the label was last applied, and whose
    label was applied before the close threshold: after the two lookups, in
    normal mode exactly one comment is posted and then the state is set to
    closed, for a charge of 2 on top of the 2 of the lookups; in dry-run
    nothing is sent and only the lookups are charged. *)
Theorem stale_item_is_closed
    (args : Args) (operationsLeft : Z) (issue : Issue) (log : list Call) :
  truthy (staleMessageOf args issue) = true ->
  isExempt utils args issue = false ->
  isLabeled utils issue (staleLabelOf args issue) = true ->
  filter isUserComment (commentsSince args issue log) = [] ->
  appliedLabelBefore utils (staleLabelDate args issue log) (daysBeforeClose args)
    = true ->
  exists closeMessage,
    loopBody args operationsLeft issue log
    = (BudgetTest (operationsLeft - 2 - (if DRY_RUN args then 0 else 2)),
       log ++ [LastAppliedStaleLabel (number issue) (staleLabelOf args issue);
               ListComments (number issue) (staleLabelDate args issue log)]
           ++ (if DRY_RUN args then []
               else [CreateComment (number issue) closeMessage;
                     Update (number issue) "closed"])).
Proof.
  unfold commentsSince, staleLabelDate. intros Hmsg Hex Hstale Hquiet Hold.
  exists (stalePrMessage args).
  unfold loopBody; run_remote. rewrite Hmsg, Hex, Hstale. simpl.
  rewrite Hquiet. simpl. rewrite Hold.
  destruct (DRY_RUN args); simpl; rewrite <- ?app_assoc; simpl;
    do 2 f_equal; lia.
Qed.

(** C5, amended.  An item whose role has a non-empty stale message, which is
    not exempt, which carries the stale label, and for which the remote side
    lists at least one comment of a user since the label was last applied:
    after the two lookups, in normal mode the stale label is removed (its
    name escaped for the URL), nothing is posted and the state is not
    touched, for a charge of 1 on top of the 2 of the lookups; in dry-run
    nothing is sent and only the lookups are charged. *)
Theorem revived_item_loses_stale_label
    (args : Args) (operationsLeft : Z) (issue : Issue) (log : list Call) :
  truthy (staleMessageOf args issue) = true ->
  isExempt utils args issue = false ->
  isLabeled utils issue (staleLabelOf args issue) = true ->
  filter isUserComment (commentsSince args issue log) <> [] ->
  loopBody args operationsLeft issue log
  = (BudgetTest (operationsLeft - 2 - (if DRY_RUN args then 0 else 1)),
     log ++ [LastAppliedStaleLabel (number issue) (staleLabelOf args issue);
             ListComments (number issue) (staleLabelDate args issue log)]
         ++ (if DRY_RUN args then []
             else [RemoveLabel (number issue)
                     (encodeURIComponent (staleLabelOf args issue))])).
Proof.
  unfold commentsSince, staleLabelDate. intros Hmsg Hex Hstale Hactive.
  unfold loopBody; run_remote. rewrite Hmsg, Hex, Hstale. simpl.
  destruct (filter isUserComment _) as [|c l]; [contradiction|]. simpl.
  destruct (DRY_RUN args); simpl; rewrite <- ?app_assoc; simpl;
    do 2 f_equal; lia.
Qed.

(** C6, amended.  An item whose role has a non-empty stale message, which is
    not exempt, which does not carry the stale label and which was last
    updated before the stale threshold: in normal mode the stale message of
    its role is posted as a comment and then the stale label of its role is
    added, for a charge of 2; in dry-run nothing is sent and nothing is
    charged. *)
Theorem quiet_item_is_marked_stale
    (args : Args) (operationsLeft : Z) (issue : Issue) (log : list Call) :
  truthy (staleMessageOf args issue) = true ->
  isExempt utils args issue = false ->
  isLabeled utils issue (staleLabelOf args issue) = false ->
  wasLastUpdatedBefore utils issue (daysBeforeStale args) = true ->
  loopBody args operationsLeft issue log
  = (BudgetTest (operationsLeft - (if DRY_RUN args then 0 else 2)),
     log ++ (if DRY_RUN args then []
             else [CreateComment (number issue) (staleMessageOf args issue);
                   AddLabels (number issue) [staleLabelOf args issue]])).
Proof.
  intros Hmsg Hex Hfresh Hquiet.
  unfold loopBody; run_remote. rewrite Hmsg, Hex, Hfresh, Hquiet. simpl.
  destruct (DRY_RUN args); simpl; rewrite <- ?app_assoc, ?app_nil_r; simpl;
    do 2 f_equal; lia.
Qed.

(** An item without the exempt label of its role is not exempt. *)
Lemma unlabeled_not_exempt (args : Args) (issue : Issue) :
  isLabeled utils issue (exemptLabelOf args issue) = false ->
  isExempt utils args issue = false.
Proof. unfold isExempt. intros ->. apply andb_false_r. Qed.

(** ** Dry-run against normal mode *)

(** One iteration in the two modes, from the same log and the same budget:
    the lookups are those of normal mode, in the same order and with the
    same answers; dry-run sends nothing else and is charged for them alone,
    normal mode is charged for them and for its mutations; and the two end
    in [continue] together. *)
Lemma loopBody_modes (args : Args) (operationsLeft : Z) (issue : Issue)
      (log : list Call) :
  DRY_RUN args = true ->
  exists newDry newNormal,
    snd (loopBody args operationsLeft issue log) = log ++ newDry
    /\ snd (loopBody (withDryRun false args) operationsLeft issue log)
       = log ++ newNormal
    /\ newDry = lookups newNormal
    /\ mutations newDry = []
    /\ budgetAfter operationsLeft (fst (loopBody args operationsLeft issue log))
       = operationsLeft - Z.of_nat (List.length newDry)
    /\ budgetAfter operationsLeft
         (fst (loopBody (withDryRun false args) operationsLeft issue log))
       = operationsLeft - Z.of_nat (List.length newDry)
         - Z.of_nat (List.length (mutations newNormal))
    /\ (fst (loopBody args operationsLeft issue log) = ContinueStmt
        <-> fst (loopBody (withDryRun false args) operationsLeft issue log)
            = ContinueStmt).
Proof.
  intros Hdry.
  unfold loopBody, isExempt, staleMessageOf, staleLabelOf, exemptLabelOf.
  simpl. rewrite Hdry. run_remote.
  split_ifs; simpl; rewrite <- ?app_assoc; simpl;
    do 2 eexists;
    (split; [reflexivity || (symmetry; apply app_nil_r)|]);
    (split; [reflexivity || (symmetry; apply app_nil_r)|]);
    simpl; repeat split; try lia; try discriminate; try reflexivity.
Qed.

(** The same comparison when the two modes start from different logs and
    budgets, on a remote side that does not change. *)
Lemma loopBody_modes_static (args : Args) (opsN opsD : Z) (issue : Issue)
      (logN logD : list Call) :
  DRY_RUN args = true ->
  staticRemote client utils ->
  exists newN newD,
    snd (loopBody (withDryRun false args) opsN issue logN) = logN ++ newN
    /\ snd (loopBody args opsD issue logD) = logD ++ newD
    /\ newD = lookups newN
    /\ match fst (loopBody (withDryRun false args) opsN issue logN),
             fst (loopBody args opsD issue logD) with
       | ContinueStmt, ContinueStmt => newN = []
       | BudgetTest opsN', BudgetTest opsD' =>
           opsN' = opsN - Z.of_nat (List.length newD)
                   - Z.of_nat (List.length (mutations newN))
           /\ opsD' = opsD - Z.of_nat (List.length newD)
       | _, _ => False
       end.
Proof.
  intros Hdry (_ & Hcomments & Hdate).
  unfold loopBody, isExempt, staleMessageOf, staleLabelOf, exemptLabelOf.
  simpl. rewrite Hdry. run_remote.
  repeat (match goal with
          | |- context [if ?b then _ else _] => destruct b eqn:?
          end;
          simpl;
          rewrite ?(Hdate logN []), ?(Hdate logD []),
                  ?(Hcomments (logN ++ _) []), ?(Hcomments (logD ++ _) []));
    rewrite <- ?app_assoc; simpl;
    do 2 eexists;
    (split; [reflexivity || (symmetry; apply app_nil_r)|]);
    (split; [reflexivity || (symmetry; apply app_nil_r)|]);
    simpl; repeat split; try lia; try discriminate; try reflexivity.
Qed.

(** Along a page, with the budget of normal mode equal to that of dry-run or
    positive and below it: the lookups of normal mode are the first lookups
    of dry-run, and if normal mode reaches the end of the page so does
    dry-run, having sent exactly the same lookups. *)
Lemma forIssues_modes (args : Args) (issues : list Issue) :
  DRY_RUN args = true ->
  staticRemote client utils ->
  forall (opsN opsD : Z) (logN logD : list Call),
    opsN = opsD \/ 1 <= opsN <= opsD ->
    exists newN newD more,
      snd (forIssues (withDryRun false args) issues opsN logN) = logN ++ newN
      /\ snd (forIssues args issues opsD logD) = logD ++ newD
      /\ newD = lookups newN ++ more
      /\ match fst (forIssues (withDryRun false args) issues opsN logN) with
         | Return0 => True
         | EndOfPage opsN' =>
             more = []
             /\ exists opsD',
                 fst (forIssues args issues opsD logD) = EndOfPage opsD'
                 /\ (opsN' = opsD' \/ 1 <= opsN' <= opsD')
         end.
Proof.
  intros Hdry Hstatic.
  induction issues as [|issue rest IH]; intros opsN opsD logN logD Hrel.
  - exists [], [], []. simpl. rewrite !app_nil_r.
    repeat split. exists opsD. split; [reflexivity|exact Hrel].
  - simpl. unfold bind.
    destruct (loopBody_modes_static args opsN opsD issue logN logD Hdry Hstatic)
      as (newN1 & newD1 & HlogN & HlogD & Hsame & Hit).
    destruct (loopBody (withDryRun false args) opsN issue logN) as [itN lN].
    destruct (loopBody args opsD issue logD) as [itD lD].
    simpl in *. subst lN lD.
    destruct itN as [|opsN'], itD as [|opsD']; try contradiction.
    + subst newN1 newD1. simpl. rewrite !app_nil_r. apply IH, Hrel.
    + destruct Hit as [HN HD].
      destruct (opsN' <=? 0) eqn:HleN.
      * destruct (forIssues_budget args rest opsD' (logD ++ newD1))
          as (new2 & Hlog2 & _).
        exists newN1.
        destruct (opsD' <=? 0).
        -- exists newD1, []. simpl. rewrite app_nil_r. auto.
        -- exists (newD1 ++ new2), new2. simpl.
           rewrite Hlog2, app_assoc, Hsame. auto.
      * apply Z.leb_gt in HleN.
        assert (Hrel' : opsN' = opsD' \/ 1 <= opsN' <= opsD') by lia.
        assert (HleD : (opsD' <=? 0) = false) by (apply Z.leb_gt; lia).
        rewrite HleD.
        destruct (IH opsN' opsD' (logN ++ newN1) (logD ++ newD1) Hrel')
          as (newN2 & newD2 & more & HlogN2 & HlogD2 & Hsame2 & Hend).
        exists (newN1 ++ newN2), (newD1 ++ newD2), more.
        subst newD1 newD2.
        rewrite HlogN2, HlogD2, lookups_app, <- !app_assoc.
        repeat split; auto.
Qed.

(** Along a run, on a remote side that does not change and from budgets
    related as above: every lookup normal mode sends, dry-run sends too, in
    the same order, before any other. *)
Lemma processIssues_modes (args : Args) (fuel : nat) :
  DRY_RUN args = true ->
  staticRemote client utils ->
  forall (opsN opsD page : Z) (logN logD : list Call),
    opsN = opsD \/ 1 <= opsN <= opsD ->
    exists newN newD more,
      snd (processIssues fuel (withDryRun false args) opsN page logN) = logN ++ newN
      /\ snd (processIssues fuel args opsD page logD) = logD ++ newD
      /\ newD = lookups newN ++ more.
Proof.
  intros Hdry Hstatic.
  induction fuel as [|fuel IH]; intros opsN opsD page logN logD Hrel.
  - exists [], [], []. simpl. rewrite !app_nil_r. auto.
  - destruct (processIssues_budget args (S fuel) opsD page logD)
      as (newD & HlogD & _).
    revert HlogD. simpl. unfold bind, await.
    destruct Hstatic as (Hpage & Hstatic').
    rewrite (Hpage logN logD).
    destruct (List.length (issues_listForRepo client logD page) =? 0)%nat eqn:Hempty;
      simpl.
    { intros _. exists [ListForRepo page], [ListForRepo page], []. auto. }
    destruct (opsN - 1 =? 0) eqn:HstopN.
    { intros HlogD. destruct (opsD - 1 =? 0).
      - exists [ListForRepo page], [ListForRepo page], []. auto.
      - revert HlogD.
        destruct (forIssues_budget args (issues_listForRepo client logD page)
                    (opsD - 1) (logD ++ [ListForRepo page]))
          as (new1 & Hlog1 & _).
        destruct (forIssues args (issues_listForRepo client logD page)
                    (opsD - 1) (logD ++ [ListForRepo page])) as [exit l1].
        simpl in Hlog1. subst l1.
        destruct exit as [|ops1].
        + intros _. exists [ListForRepo page], ([ListForRepo page] ++ new1), new1.
          simpl. rewrite <- app_assoc. auto.
        + destruct (processIssues_budget args fuel ops1 (page + 1)
                      ((logD ++ [ListForRepo page]) ++ new1))
            as (new2 & Hlog2 & _).
          intros _.
          exists [ListForRepo page], ([ListForRepo page] ++ new1 ++ new2),
                 (new1 ++ new2).
          rewrite Hlog2, <- !app_assoc. auto. }
    apply Z.eqb_neq in HstopN.
    assert (HstopD : (opsD - 1 =? 0) = false) by (apply Z.eqb_neq; lia).
    rewrite HstopD. intros _.
    assert (Hrel1 : opsN - 1 = opsD - 1 \/ 1 <= opsN - 1 <= opsD - 1) by lia.
    destruct (forIssues_modes args (issues_listForRepo client logD page) Hdry
                (conj Hpage Hstatic') (opsN - 1) (opsD - 1)
                (logN ++ [ListForRepo page]) (logD ++ [ListForRepo page]) Hrel1)
      as (newN1 & newD1 & more1 & HlogN1 & HlogD1 & Hsame1 & Hend).
    destruct (forIssues (withDryRun false args) (issues_listForRepo client logD page)
                (opsN - 1) (logN ++ [ListForRepo page])) as [exitN lN].
    simpl in HlogN1, Hend. subst lN.
    destruct exitN as [|opsN1].
    + destruct (forIssues args (issues_listForRepo client logD page)
                  (opsD - 1) (logD ++ [ListForRepo page])) as [exitD lD].
      simpl in HlogD1. subst lD.
      destruct exitD as [|opsD1].
      * exists ([ListForRepo page] ++ newN1), ([ListForRepo page] ++ newD1), more1.
        simpl. rewrite <- !app_assoc, Hsame1. auto.
      * destruct (processIssues_budget args fuel opsD1 (page + 1)
                    ((logD ++ [ListForRepo page]) ++ newD1))
          as (new2 & Hlog2 & _).
        exists ([ListForRepo page] ++ newN1),
               ([ListForRepo page] ++ newD1 ++ new2), (more1 ++ new2).
        rewrite Hlog2. simpl. rewrite <- !app_assoc, Hsame1. simpl.
        rewrite <- !app_assoc. auto.
    + destruct Hend as (-> & opsD1 & HexitD & Hrel2).
      destruct (forIssues args (issues_listForRepo client logD page)
                  (opsD - 1) (logD ++ [ListForRepo page])) as [exitD lD].
      simpl in HlogD1, HexitD. subst lD exitD.
      destruct (IH opsN1 opsD1 (page + 1) ((logN ++ [ListForRepo page]) ++ newN1)
                  ((logD ++ [ListForRepo page]) ++ newD1) Hrel2)
        as (newN2 & newD2 & more2 & HlogN2 & HlogD2 & Hsame2).
      exists ([ListForRepo page] ++ newN1 ++ newN2),
             ([ListForRepo page] ++ newD1 ++ newD2), more2.
      rewrite HlogN2, HlogD2, Hsame1, Hsame2, app_nil_r. simpl.
      rewrite <- !app_assoc, lookups_app. simpl. rewrite <- !app_assoc. auto.
Qed.

(** A run with fuel for a page begins with the fetch of that page. *)
Lemma processIssues_fetches_first (args : Args) (fuel : nat) (ops page : Z)
      (log : list Call) :
  exists rest,
    snd (processIssues (S fuel) args ops page log) = log ++ ListForRepo page :: rest.
Proof.
  simpl. unfold bind, await.
  destruct ((List.length (issues_listForRepo client log page) =? 0)%nat
            || (ops - 1 =? 0)); [exists []; reflexivity|].
  destruct (forIssues_budget args (issues_listForRepo client log page)
              (ops - 1) (log ++ [ListForRepo page])) as (new1 & Hlog1 & _).
  destruct (forIssues args (issues_listForRepo client log page) (ops - 1)
              (log ++ [ListForRepo page])) as [[|ops1] log1];
    simpl in Hlog1; subst log1.
  - exists new1. simpl. rewrite <- app_assoc. reflexivity.
  - destruct (processIssues_budget args fuel ops1 (page + 1)
                ((log ++ [ListForRepo page]) ++ new1)) as (new2 & Hlog2 & _).
    exists (new1 ++ new2). rewrite Hlog2, <- !app_assoc. reflexivity.
Qed.

(** One iteration in dry-run: an item that is passed over costs nothing; an
    item with the stale label costs its two lookups, whatever they answer;
    any other item costs nothing. *)
Lemma loopBody_dry_run (args : Args) (ops : Z) (issue : Issue) (log : list Call) :
  DRY_RUN args = true ->
  loopBody args ops issue log
  = if negb (truthy (staleMessageOf args issue)) || isExempt utils args issue
    then (ContinueStmt, log)
    else if isLabeled utils issue (staleLabelOf args issue)
         then (BudgetTest (ops - 2),
               log ++ [LastAppliedStaleLabel (number issue) (staleLabelOf args issue);
                       ListComments (number issue) (staleLabelDate args issue log)])
         else (BudgetTest ops, log).
Proof.
  intros Hdry. unfold loopBody, staleLabelDate; run_remote. rewrite Hdry.
  destruct (negb (truthy (staleMessageOf args issue))); [reflexivity|].
  destruct (isExempt utils args issue); [reflexivity|].
  destruct (isLabeled utils issue (staleLabelOf args issue)); simpl.
  - split_ifs; simpl; rewrite <- ?app_assoc; simpl; do 2 f_equal; lia.
  - destruct (wasLastUpdatedBefore utils issue (daysBeforeStale args)); simpl;
      do 2 f_equal; lia.
Qed.

(** C8, amended.  With dry-run enabled:
    - every page of a run is fetched before anything else is done with it;
    - an item that is not passed over and carries the stale label has its
      two lookups sent, in order, and charged one unit each, whatever they
      answer; for no other item is anything sent or charged;
    - on any item, from the same log and budget, these are exactly the
      lookups normal mode sends, and normal mode is charged for them the
      same and, on top, one unit per mutation;
    - a run, from any budget, page and log and however far it gets, sends
      no mutation; every request it sends is charged one unit, so that what
      it returns is the budget less the number of requests, or 0 when that
      is not positive;
    - when the repository does not change during the run, every lookup of
      the normal run is also sent by the dry run, in the same order,
      possibly followed by more. *)
Theorem dry_run_reads_and_never_writes (args : Args) :
  DRY_RUN args = true ->
  (forall (fuel : nat) (operationsLeft page : Z) (log : list Call),
      exists rest,
        snd (processIssues (S fuel) args operationsLeft page log)
        = log ++ ListForRepo page :: rest)
  /\ (forall (operationsLeft : Z) (issue : Issue) (log : list Call),
      loopBody args operationsLeft issue log
      = if negb (truthy (staleMessageOf args issue)) || isExempt utils args issue
        then (ContinueStmt, log)
        else if isLabeled utils issue (staleLabelOf args issue)
             then (BudgetTest (operationsLeft - 2),
                   log ++ [LastAppliedStaleLabel (number issue)
                             (staleLabelOf args issue);
                           ListComments (number issue)
                             (staleLabelDate args issue log)])
             else (BudgetTest operationsLeft, log))
  /\ (forall (operationsLeft : Z) (issue : Issue) (log : list Call),
      exists newNormal,
        snd (loopBody (withDryRun false args) operationsLeft issue log)
        = log ++ newNormal
        /\ snd (loopBody args operationsLeft issue log) = log ++ lookups newNormal
        /\ budgetAfter operationsLeft (fst (loopBody args operationsLeft issue log))
           = operationsLeft - Z.of_nat (List.length (lookups newNormal))
        /\ budgetAfter operationsLeft
             (fst (loopBody (withDryRun false args) operationsLeft issue log))
           = operationsLeft - Z.of_nat (List.length (lookups newNormal))
             - Z.of_nat (List.length (mutations newNormal)))
  /\ (forall (fuel : nat) (operationsLeft page : Z) (log : list Call),
      exists new,
        snd (processIssues fuel args operationsLeft page log) = log ++ new
        /\ mutations new = []
        /\ forall v,
            fst (processIssues fuel args operationsLeft page log) = Some v ->
            v = operationsLeft - Z.of_nat (List.length new)
            \/ (v = 0 /\ operationsLeft - Z.of_nat (List.length new) <= 0))
  /\ (staticRemote client utils ->
      forall (fuel : nat) (operationsLeft page : Z) (log : list Call),
      exists newNormal newDry more,
        snd (processIssues fuel (withDryRun false args) operationsLeft page log)
        = log ++ newNormal
        /\ snd (processIssues fuel args operationsLeft page log) = log ++ newDry
        /\ newDry = lookups newNormal ++ more).
Proof.
  intros Hdry. split; [|split; [|split; [|split]]].
  - intros fuel ops page log. apply processIssues_fetches_first.
  - intros ops issue log. apply loopBody_dry_run, Hdry.
  - intros ops issue log.
    destruct (loopBody_modes args ops issue log Hdry)
      as (newDry & newNormal & H1 & H2 & H3 & H4 & H5 & H6 & _).
    subst newDry. exists newNormal. auto.
  - intros fuel ops page log.
    destruct (processIssues_budget args fuel ops page log)
      as (new & Hlog & Hmut & Hcharge & _).
    specialize (Hmut Hdry).
    exists new. split; [exact Hlog|]. split; [exact Hmut|].
    intros v Hv. specialize (Hcharge v Hv).
    unfold charge in Hcharge. rewrite Hdry in Hcharge.
    rewrite (length_split_calls new), Hmut. simpl. lia.
  - intros Hstatic fuel ops page log.
    apply processIssues_modes; auto.
Qed.

(** ** Where a page and a run stop *)

(** The fetch of a page is sent first and costs one unit; on an empty page,
    or when the fetch has brought the budget to exactly 0, the run returns
    what is left without looking at any item. *)
Lemma fetch_stops_the_run (args : Args) (fuel : nat) (operationsLeft page : Z)
      (log : list Call) :
  issues_listForRepo client log page = [] \/ operationsLeft - 1 = 0 ->
  processIssues (S fuel) args operationsLeft page log
  = (Some (operationsLeft - 1), log ++ [ListForRepo page]).
Proof.
  intros Hstop. simpl. unfold bind, await.
  destruct Hstop as [-> | ->]; simpl; [reflexivity|].
  rewrite orb_true_r. reflexivity.
Qed.

(** An item whose handling leaves the budget at 0 or below is the last one
    looked at: the page loop returns 0 with the log as that item left it,
    and so does the run. *)
Lemma exhausted_budget_ends_the_page (args : Args) (operationsLeft : Z)
      (issue : Issue) (rest : list Issue) (log log' : list Call)
      (operationsLeft' : Z) :
  loopBody args operationsLeft issue log = (BudgetTest operationsLeft', log') ->
  operationsLeft' <= 0 ->
  forIssues args (issue :: rest) operationsLeft log = (Return0, log').
Proof.
  intros Hbody Hle. simpl. unfold bind. rewrite Hbody.
  apply Z.leb_le in Hle. rewrite Hle. reflexivity.
Qed.

(** Items handled without exhausting the budget are followed by the rest of
    the page. *)
Lemma forIssues_app (args : Args) (before after : list Issue) :
  forall (operationsLeft : Z) (log : list Call),
    forIssues args (before ++ after) operationsLeft log
    = match forIssues args before operationsLeft log with
      | (Return0, log') => (Return0, log')
      | (EndOfPage operationsLeft', log') =>
          forIssues args after operationsLeft' log'
      end.
Proof.
  induction before as [|issue before IH]; intros ops log; [reflexivity|].
  simpl. unfold bind.
  destruct (loopBody args ops issue log) as [[|ops1] log1]; [apply IH|].
  destruct (ops1 <=? 0); [reflexivity|apply IH].
Qed.

(** With a budget of at least 1, the budget is positive whenever an item is
    about to be handled; so the item that brings it to 0 or below is the
    last: whatever precedes it on the page, and whatever follows it on this
    page or a later one, the run returns 0 with the log as that item left
    it. *)
Lemma exhausted_budget_ends_the_run (args : Args) (fuel : nat)
      (operationsLeft page : Z) (log : list Call)
      (before after : list Issue) (issue : Issue)
      (operationsLeft1 operationsLeft2 : Z) (log1 log2 : list Call) :
  issues_listForRepo client log page = before ++ issue :: after ->
  operationsLeft - 1 <> 0 ->
  forIssues args before (operationsLeft - 1) (log ++ [ListForRepo page])
    = (EndOfPage operationsLeft1, log1) ->
  loopBody args operationsLeft1 issue log1 = (BudgetTest operationsLeft2, log2) ->
  operationsLeft2 <= 0 ->
  processIssues (S fuel) args operationsLeft page log = (Some 0, log2).
Proof.
  intros Hpage Hne Hbefore Hbody Hle.
  simpl. unfold bind, await. rewrite Hpage.
  apply Z.eqb_neq in Hne. rewrite Hne.
  replace (List.length (before ++ issue :: after) =? 0)%nat with false
    by (symmetry; apply Nat.eqb_neq; rewrite length_app; simpl; lia).
  simpl. rewrite forIssues_app, Hbefore.
  rewrite (exhausted_budget_ends_the_page _ _ _ _ _ _ _ Hbody Hle). reflexivity.
Qed.

(** A run started with a budget of 0 or less still fetches the page, and on
    a page that is not empty goes through the whole handling of its first
    item before anything else. *)
Lemma spent_budget_still_handles_first_item (args : Args) (fuel : nat)
      (operationsLeft page : Z) (log : list Call)
      (issue : Issue) (rest : list Issue) :
  operationsLeft <= 0 ->
  issues_listForRepo client log page = issue :: rest ->
  exists more,
    snd (processIssues (S fuel) args operationsLeft page log)
    = snd (loopBody args (operationsLeft - 1) issue (log ++ [ListForRepo page]))
      ++ more.
Proof.
  intros Hle Hpage. simpl. unfold bind, await. rewrite Hpage.
  replace (operationsLeft - 1 =? 0) with false by (symmetry; apply Z.eqb_neq; lia).
  simpl. unfold bind.
  destruct (loopBody args (operationsLeft - 1) issue (log ++ [ListForRepo page]))
    as [it log1]. simpl.
  assert (Hrest : forall ops, exists more,
             snd (let (exit, log') := forIssues args rest ops log1 in
                  match exit with
                  | Return0 => ret (Some 0)
                  | EndOfPage ops' => processIssues fuel args ops' (page + 1)
                  end log') = log1 ++ more).
  { intros ops.
    destruct (forIssues_budget args rest ops log1) as (new1 & Hlog1 & _).
    destruct (forIssues args rest ops log1) as [[|ops'] l]; simpl in Hlog1; subst l.
    - exists new1. reflexivity.
    - destruct (processIssues_budget args fuel ops' (page + 1) (log1 ++ new1))
        as (new2 & Hlog2 & _).
      exists (new1 ++ new2). rewrite Hlog2, app_assoc. reflexivity. }
  destruct it as [|ops1]; [apply Hrest|].
  destruct (ops1 <=? 0); [|apply Hrest].
  exists []. simpl. rewrite app_nil_r. reflexivity.
Qed.

(** A run started with a budget of at least 1 and fuel for as many pages
    returns, returns a budget that is not negative, and has sent no more
    mutations than the budget it started with. *)
Lemma positive_budget_is_respected (args : Args) (fuel : nat)
      (operationsLeft page : Z) (log : list Call) :
  1 <= operationsLeft ->
  (Z.to_nat operationsLeft <= fuel)%nat ->
  exists v new,
    processIssues fuel args operationsLeft page log = (Some v, log ++ new)
    /\ 0 <= v
    /\ Z.of_nat (List.length (mutations new)) <= operationsLeft.
Proof.
  intros Hpos Hfuel.
  destruct (processIssues_terminates args fuel operationsLeft page log Hpos Hfuel)
    as (v & Hv).
  destruct (processIssues_budget args fuel operationsLeft page log)
    as (new & Hlog & _ & _ & Hbud).
  destruct (Hbud Hpos) as [Hmut Hres].
  exists v, new.
  destruct (processIssues fuel args operationsLeft page log) as [r l].
  simpl in *. subst. auto.
Qed.

End ProcessorFacts.

(** ** Reading numbers *)

(** A byte that is neither a digit, nor a sign, nor part of a radix
    prefix. *)
Definition inertByte (c : ascii) : Prop :=
  digitValue c = None
  /\ Ascii.eqb c "-" = false /\ Ascii.eqb c "+" = false
  /\ Ascii.eqb c "0" = false /\ Ascii.eqb c "x" = false /\ Ascii.eqb c "X" = false.

Lemma oneByteWhiteSpace_inert (c : ascii) :
  oneByteWhiteSpace c = true -> inertByte c.
Proof.
  destruct c as [[] [] [] [] [] [] [] []]; vm_compute; intros H;
    try discriminate H; repeat split.
Qed.

Lemma highByte_inert (c : ascii) :
  (128 <=? N_of_ascii c)%N = true -> inertByte c.
Proof.
  destruct c as [[] [] [] [] [] [] [] []]; vm_compute; intros H;
    try discriminate H; repeat split.
Qed.

Lemma twoByteWhiteSpace_inert (a b : ascii) :
  twoByteWhiteSpace a b = true -> inertByte a.
Proof.
  unfold twoByteWhiteSpace. intros H. apply andb_prop in H. destruct H as [H _].
  apply highByte_inert, N.leb_le. apply N.eqb_eq in H. lia.
Qed.

Lemma threeByteWhiteSpace_inert (a b c : ascii) :
  threeByteWhiteSpace a b c = true -> inertByte a.
Proof.
  unfold threeByteWhiteSpace. intros H. apply highByte_inert, N.leb_le.
  destruct (N.eqb_spec (N_of_ascii a) 225); [lia|].
  destruct (N.eqb_spec (N_of_ascii a) 226); [lia|].
  destruct (N.eqb_spec (N_of_ascii a) 227); [lia|].
  destruct (N.eqb_spec (N_of_ascii a) 239); [lia|].
  discriminate H.
Qed.

(** A blank string that is not empty begins with an inert byte. *)
Lemma isBlank_inert (c : ascii) (s : string) :
  isBlank (String c s) = true -> inertByte c.
Proof.
  unfold isBlank. cbn [trimStart].
  destruct (oneByteWhiteSpace c) eqn:H1; [intros _; apply oneByteWhiteSpace_inert, H1|].
  destruct s as [|b r2]; [discriminate|].
  destruct (twoByteWhiteSpace c b) eqn:H2;
    [intros _; apply (twoByteWhiteSpace_inert c b), H2|].
  destruct r2 as [|d r3]; [discriminate|].
  destruct (threeByteWhiteSpace c b d) eqn:H3;
    [intros _; apply (threeByteWhiteSpace_inert c b d), H3|].
  discriminate.
Qed.

(** [trimEnd] either drops a blank string, which begins with an inert byte,
    or keeps the first byte and trims the rest. *)
Lemma trimEnd_cases (c : ascii) (s : string) :
  (trimEnd (String c s) = EmptyString /\ inertByte c)
  \/ trimEnd (String c s) = String c (trimEnd s).
Proof.
  cbn [trimEnd]. destruct (isBlank (String c s)) eqn:Hblank; [left|right; reflexivity].
  split; [reflexivity|]. apply (isBlank_inert c s), Hblank.
Qed.

Lemma parseDigits_trimEnd (radix : Z) (s : string) :
  forall acc, parseDigits radix (trimEnd s) acc = parseDigits radix s acc.
Proof.
  induction s as [|c s IH]; intros acc; [reflexivity|].
  destruct (trimEnd_cases c s) as [(E & Hdigit & _)|E]; rewrite E.
  - simpl. rewrite Hdigit. reflexivity.
  - simpl. destruct (digitValue c) as [d|]; [|reflexivity].
    destruct (d <? radix); [apply IH|reflexivity].
Qed.

Lemma parseUnsigned_trimEnd (s : string) :
  parseUnsigned (trimEnd s) = parseUnsigned s.
Proof.
  unfold parseUnsigned.
  destruct s as [|c [|d s]].
  - reflexivity.
  - change (readRadix (String c "")) with (10, String c "").
    replace (readRadix (trimEnd (String c ""))) with (10, trimEnd (String c ""))
      by (destruct (trimEnd_cases c "") as [(E & _)|E]; rewrite E; reflexivity).
    apply parseDigits_trimEnd.
  - destruct (trimEnd_cases c (String d s)) as [(E & Hdigit & _ & _ & Hzero & _)|E].
    + rewrite E. unfold readRadix. rewrite Hzero. simpl. rewrite Hdigit. reflexivity.
    + destruct (trimEnd_cases d s) as [(E' & _ & _ & _ & _ & Hx & HX)|E'].
      * rewrite E, E'.
        unfold readRadix. rewrite Hx, HX, andb_false_r.
        rewrite <- (parseDigits_trimEnd 10 (String c (String d s))), E, E'.
        reflexivity.
      * rewrite E, E'. unfold readRadix.
        destruct (Ascii.eqb c "0" && (Ascii.eqb d "x" || Ascii.eqb d "X")).
        -- apply parseDigits_trimEnd.
        -- rewrite <- E', <- E. apply parseDigits_trimEnd.
Qed.

Lemma parseSigned_trimEnd (s : string) :
  parseSigned (trimEnd s) = parseSigned s.
Proof.
  unfold parseSigned.
  destruct s as [|c s]; [reflexivity|].
  destruct (trimEnd_cases c s) as [(E & _ & Hminus & Hplus & _)|E].
  - unfold readSign at 2. rewrite Hminus, Hplus.
    rewrite <- (parseUnsigned_trimEnd (String c s)), E. reflexivity.
  - rewrite E. unfold readSign.
    destruct (Ascii.eqb c "-"); [rewrite parseUnsigned_trimEnd; reflexivity|].
    destruct (Ascii.eqb c "+"); [rewrite parseUnsigned_trimEnd; reflexivity|].
    rewrite <- E, parseUnsigned_trimEnd. reflexivity.
Qed.

(** What [trimStart] leaves does not begin with white space. *)
Lemma trimStart_head_bounded (n : nat) :
  forall s, (String.length s <= n)%nat -> startsWithWhiteSpace (trimStart s) = false.
Proof.
  induction n as [|n IH]; intros s Hlen.
  - destruct s; [reflexivity|simpl in Hlen; lia].
  - destruct s as [|a r]; [reflexivity|]. simpl in Hlen.
    cbn [trimStart].
    destruct (oneByteWhiteSpace a) eqn:H1; [apply IH; lia|].
    destruct r as [|b r2]; [cbn [startsWithWhiteSpace]; rewrite H1; reflexivity|].
    simpl in Hlen.
    destruct (twoByteWhiteSpace a b) eqn:H2; [apply IH; lia|].
    destruct r2 as [|c r3];
      [cbn [startsWithWhiteSpace]; rewrite H1, H2; reflexivity|].
    simpl in Hlen.
    destruct (threeByteWhiteSpace a b c) eqn:H3; [apply IH; lia|].
    cbn [startsWithWhiteSpace]. rewrite H1, H2, H3. reflexivity.
Qed.

Lemma trimStart_head (s : string) : startsWithWhiteSpace (trimStart s) = false.
Proof. apply (trimStart_head_bounded (String.length s)). lia. Qed.

Ltac split_white a b c :=
  try (destruct (oneByteWhiteSpace a); cbn [orb];
       [intros H; discriminate H|]);
  try (destruct (twoByteWhiteSpace a b); cbn [orb];
       [intros H; discriminate H|]);
  try (destruct (threeByteWhiteSpace a b c); cbn [orb];
       [intros H; discriminate H|]);
  try (intros _; reflexivity).

(** A string that does not begin with white space is left alone. *)
Lemma trimStart_nothing (s : string) :
  startsWithWhiteSpace s = false -> trimStart s = s.
Proof.
  destruct s as [|a [|b [|c r3]]]; cbn [startsWithWhiteSpace trimStart];
    [reflexivity|..]; split_white a b c.
Qed.

(** Trimming the end does not uncover white space at the start. *)
Lemma trimEnd_head (s : string) :
  startsWithWhiteSpace s = false -> startsWithWhiteSpace (trimEnd s) = false.
Proof.
  destruct s as [|a [|b [|c r3]]]; cbn [trimEnd];
    repeat match goal with
           | |- context [isBlank ?t] => destruct (isBlank t)
           end;
    cbn [startsWithWhiteSpace]; try (intros _; reflexivity);
    split_white a b c.
  all: destruct (trimEnd r3); intros _; reflexivity.
Qed.

Lemma trimStart_trim (s : string) : trimStart (trim s) = trim s.
Proof.
  unfold trim. apply trimStart_nothing, trimEnd_head, trimStart_head.
Qed.

(** [parseInt] reads the same number in a text and in the text trimmed, as
    [core.getInput] returns it. *)
Lemma parseInt_trim (s : string) : parseInt (trim s) = parseInt s.
Proof.
  unfold parseInt. rewrite trimStart_trim. unfold trim.
  apply parseSigned_trimEnd.
Qed.

(** White space of more than one byte is skipped like a plain space, by
    [trim] and by [parseInt]; a lone continuation byte is not white space. *)
Example unicode_white_space_is_skipped :
  parseInt (Cases.noBreakSpace ++ "30")%string = Some 30
  /\ parseInt (Cases.byteOrderMark ++ " -7 ")%string = Some (-7)
  /\ trim (Cases.noBreakSpace ++ " 30" ++ Cases.byteOrderMark ++ " ")%string = "30"
  /\ trim (Cases.noBreakSpace ++ Cases.byteOrderMark)%string = ""
  /\ trim (String (ascii_of_N 160) "30") = String (ascii_of_N 160) "30"
  /\ parseInt (String (ascii_of_N 160) "30") = None.
Proof. vm_compute. repeat split. Qed.

(** A number may be followed by anything, and be written in hexadecimal;
    without a digit to begin with there is no number. *)
Example parseInt_samples :
  parseInt "30" = Some 30
  /\ parseInt "  -12 days" = Some (-12)
  /\ parseInt "0x1F" = Some 31
  /\ parseInt "-0" = Some 0
  /\ parseInt "ten" = None
  /\ parseInt "" = None
  /\ parseInt "+" = None
  /\ parseInt "0x" = None.
Proof. vm_compute. repeat split. Qed.

(** ** Configuration *)

Section ActionFacts.

Variable client : Client.
Variable utils : Utils.
Variable inputs : Inputs.

Local Abbreviation getAndValidateArgs := (getAndValidateArgs utils inputs).
Local Abbreviation run := (run client utils inputs).

Ltac step_inputs :=
  repeat (match goal with
          | |- context [if ?b then _ else _] => destruct b eqn:?
          | |- context [match parseInt ?s with _ => _ end] =>
              destruct (parseInt s) eqn:?
          end; simpl in *; try discriminate; eauto).

Ltac names_message name :=
  exists name; (left; reflexivity) || (right; reflexivity).

(** Validation throws when one of the three numeric inputs does not parse. *)
Lemma getAndValidateArgs_rejects (name : string) :
  In name ["days-before-stale"; "days-before-close"; "operations-per-run"] ->
  parseInt (trim (inputs name)) = None ->
  exists message, getAndValidateArgs = Throw message.
Proof.
  intros Hin Hnan.
  unfold getAndValidateArgs, getInput, isNaN. simpl.
  destruct Hin as [<-|[<-|[<-|[]]]]; rewrite !Hnan; step_inputs.
Qed.

(** What validation throws is one of the two messages of the source. *)
Lemma getAndValidateArgs_message (message : string) :
  getAndValidateArgs = Throw message ->
  exists name,
    message = ("Input required and not supplied: " ++ name)%string
    \/ message = ("input " ++ name ++ " did not parse to a valid integer")%string.
Proof.
  unfold getAndValidateArgs, getInput, isNaN. simpl.
  step_inputs; intros H; try discriminate H; injection H as <-;
    first [ names_message "repo-token" | names_message "days-before-stale"
          | names_message "days-before-close" | names_message "stale-issue-label"
          | names_message "stale-pr-label" | names_message "operations-per-run" ].
Qed.

(** The empty text is not a number. *)
Lemma parseInt_trim_empty (s : string) :
  truthy s = false -> parseInt (trim s) = None.
Proof.
  unfold truthy. destruct (String.eqb_spec s ""); [subst; reflexivity|discriminate].
Qed.

(** Validation accepts any three numeric inputs that parse, and hands the
    numbers on as they parsed. *)
Lemma getAndValidateArgs_accepts (stale close operations : Z) :
  truthy (inputs "repo-token") = true ->
  truthy (inputs "stale-issue-label") = true ->
  truthy (inputs "stale-pr-label") = true ->
  parseInt (trim (inputs "days-before-stale")) = Some stale ->
  parseInt (trim (inputs "days-before-close")) = Some close ->
  parseInt (trim (inputs "operations-per-run")) = Some operations ->
  getAndValidateArgs
  = Ok {| repoToken := trim (inputs "repo-token");
          DRY_RUN := isTrue utils (trim (inputs "DRY_RUN"));
          staleIssueMessage := trim (inputs "stale-issue-message");
          stalePrMessage := trim (inputs "stale-pr-message");
          daysBeforeStale := stale;
          daysBeforeClose := close;
          staleIssueLabel := trim (inputs "stale-issue-label");
          exemptIssueLabel := trim (inputs "exempt-issue-label");
          stalePrLabel := trim (inputs "stale-pr-label");
          exemptPrLabel := trim (inputs "exempt-pr-label");
          operationsPerRun := operations |}.
Proof.
  intros Htoken Hlabel Hprlabel Hstale Hclose Hops.
  assert (H1 : truthy (inputs "days-before-stale") = true).
  { destruct (truthy (inputs "days-before-stale")) eqn:E; [reflexivity|].
    rewrite (parseInt_trim_empty _ E) in Hstale. discriminate. }
  assert (H2 : truthy (inputs "days-before-close") = true).
  { destruct (truthy (inputs "days-before-close")) eqn:E; [reflexivity|].
    rewrite (parseInt_trim_empty _ E) in Hclose. discriminate. }
  assert (H3 : truthy (inputs "operations-per-run") = true).
  { destruct (truthy (inputs "operations-per-run")) eqn:E; [reflexivity|].
    rewrite (parseInt_trim_empty _ E) in Hops. discriminate. }
  unfold getAndValidateArgs, getInput, isNaN.
  rewrite Htoken, Hlabel, Hprlabel, H1, H2, H3. simpl.
  rewrite Hstale, Hclose, Hops. reflexivity.
Qed.

(** C9.  When the text supplied for days-before-stale, days-before-close or
    operations-per-run does not parse to a number, the run sends no request
    at all and ends in [core.setFailed], that is with exit status 1. *)
Theorem non_numeric_input_fails_before_any_call (fuel : nat) (name : string) :
  In name ["days-before-stale"; "days-before-close"; "operations-per-run"] ->
  parseInt (inputs name) = None ->
  exists message,
    run fuel = (Failed message, [])
    /\ exitCode (fst (run fuel)) = Some 1.
Proof.
  intros Hin Hnan. rewrite <- parseInt_trim in Hnan.
  destruct (getAndValidateArgs_rejects name Hin Hnan) as (message & Hthrow).
  exists message. unfold run. rewrite Hthrow. split; reflexivity.
Qed.

(** C10.  Validation accepts whatever integers the three numeric inputs
    parse to, zero and negative ones included, and hands them on unchanged.
    When the budget so accepted is 0 or negative, the run still fetches
    page 1 and, if that page is not empty, goes through the whole handling
    of its first item (which may send mutations) before anything else. *)
Theorem nonpositive_budget_is_accepted_and_spent (stale close operations : Z) :
  truthy (inputs "repo-token") = true ->
  truthy (inputs "stale-issue-label") = true ->
  truthy (inputs "stale-pr-label") = true ->
  parseInt (inputs "days-before-stale") = Some stale ->
  parseInt (inputs "days-before-close") = Some close ->
  parseInt (inputs "operations-per-run") = Some operations ->
  exists args,
    getAndValidateArgs = Ok args
    /\ daysBeforeStale args = stale
    /\ daysBeforeClose args = close
    /\ operationsPerRun args = operations
    /\ (operations <= 0 ->
        forall (fuel : nat) (issue : Issue) (rest : list Issue),
          issues_listForRepo client [] 1 = issue :: rest ->
          exists more,
            snd (run (S fuel))
            = snd (loopBody client utils args (operations - 1) issue [ListForRepo 1])
              ++ more).
Proof.
  intros Htoken Hlabel Hprlabel Hstale Hclose Hops.
  rewrite <- parseInt_trim in Hstale, Hclose, Hops.
  pose proof (getAndValidateArgs_accepts stale close operations
                Htoken Hlabel Hprlabel Hstale Hclose Hops) as Hargs.
  eexists. split; [exact Hargs|]. repeat split.
  intros Hle fuel issue rest Hpage.
  unfold run. rewrite Hargs.
  match goal with
  | |- context [processIssues client utils (S fuel) ?a ?o 1 []] =>
      destruct (spent_budget_still_handles_first_item client utils a fuel o 1 []
                  issue rest Hle Hpage) as (more & Hlog);
      destruct (processIssues client utils (S fuel) a o 1 []) as [r l]
  end.
  exists more. simpl in *. exact Hlog.
Qed.

End ActionFacts.

(** * The processor on explicit inputs *)

Section Examples.

Local Abbreviation remote := (Sample.client Sample.everything).
Local Abbreviation helpers := (Sample.utils Sample.everything).
Local Abbreviation issue1 := Sample.issue1.
Local Abbreviation issue2 := Sample.issue2.
Local Abbreviation issue3 := Sample.issue3.
Local Abbreviation issue4 := Sample.issue4.
Local Abbreviation issue5 := Sample.issue5.
Local Abbreviation issue6 := Sample.issue6.
Local Abbreviation issue7 := Sample.issue7.
Local Abbreviation day := Sample.day.

(** The scenario of items 1 to 3 on one page, with a budget of 10: item 1
    is marked stale, item 2 loses its label, item 3 is closed, and the
    budget is spent. *)
Example scenario_run :
  Sample.process [[issue1; issue2; issue3]] (Sample.args false 10)
  = (Some 0,
     [ListForRepo 1;
      CreateComment 1 "This issue is stale"; AddLabels 1 ["stale"];
      LastAppliedStaleLabel 2 "stale pr?"; ListComments 2 (day 90);
      RemoveLabel 2 "stale%20pr%3F";
      LastAppliedStaleLabel 3 "stale"; ListComments 3 (day 60);
      CreateComment 3 "This pull request is stale"; Update 3 "closed"]).
Proof. vm_compute. reflexivity. Qed.

(** The same page in dry-run: lookups only, and a second page is fetched. *)
Example scenario_dry_run :
  Sample.process [[issue1; issue2; issue3]] (Sample.args true 10)
  = (Some 4,
     [ListForRepo 1;
      LastAppliedStaleLabel 2 "stale pr?"; ListComments 2 (day 90);
      LastAppliedStaleLabel 3 "stale"; ListComments 3 (day 60);
      ListForRepo 2]).
Proof. vm_compute. reflexivity. Qed.

(** C1.  A run configured with a budget of 0 on a page holding the pinned
    item 4 and then the quiet item 1.  The fetch leaves the budget at -1;
    item 4 is handled with the budget below zero and the run does not stop
    after it; item 1 is then examined and receives a comment and a label:
    two mutations for a budget of none. *)
Theorem zero_budget_run_mutates :
  Sample.process [[issue4; issue1; issue5]] (Sample.args false 0)
  = (Some 0,
     [ListForRepo 1; CreateComment 1 "This issue is stale"; AddLabels 1 ["stale"]])
  /\ operationsPerRun (Sample.args false 0)
     < Z.of_nat (List.length (mutations
         (snd (Sample.process [[issue4; issue1; issue5]] (Sample.args false 0))))).
Proof. vm_compute. split; reflexivity. Qed.

(** C2.  Item 3 is a plain issue, the message of its role is the issue
    message, and the two messages differ; the comment posted before it is
    closed carries the pull-request message. *)
Theorem plain_issue_is_closed_with_pr_message :
  isPullRequest issue3 = false
  /\ staleMessageOf (Sample.args false 10) issue3 = "This issue is stale"
  /\ Sample.process [[issue3]] (Sample.args false 10)
     = (Some 4,
        [ListForRepo 1;
         LastAppliedStaleLabel 3 "stale"; ListComments 3 (day 60);
         CreateComment 3 "This pull request is stale"; Update 3 "closed";
         ListForRepo 2]).
Proof. vm_compute. repeat split; reflexivity. Qed.

(** C3.  A run whose budget is already exhausted (0) fetches page 1, which
    brings the budget to -1; the page is not empty and the run goes on to
    process its item instead of returning the remaining budget. *)
Theorem spent_budget_fetch_does_not_stop :
  Sample.process [[issue3]] (Sample.args false 0)
  = (Some 0,
     [ListForRepo 1;
      LastAppliedStaleLabel 3 "stale"; ListComments 3 (day 60);
      CreateComment 3 "This pull request is stale"; Update 3 "closed"]).
Proof. vm_compute. reflexivity. Qed.

(** C4 as stated fails.  Items 4 and 6 carry the stale label of their role,
    no user has commented on them since the label was applied, and the
    label is older than the close threshold.  Item 4 is pinned and is passed
    over; item 6 is passed over when pull requests have no stale message;
    in dry-run item 3, which nothing exempts, is looked up but neither
    commented nor closed. *)
Lemma stale_items_that_are_not_closed :
  (isLabeled helpers issue4 (staleLabelOf (Sample.args false 10) issue4) = true
   /\ filter isUserComment
        (commentsSince remote helpers (Sample.args false 10) issue4 [ListForRepo 1])
      = []
   /\ appliedLabelBefore helpers
        (staleLabelDate helpers (Sample.args false 10) issue4 [ListForRepo 1])
        (daysBeforeClose (Sample.args false 10)) = true
   /\ Sample.process [[issue4]] (Sample.args false 10)
      = (Some 8, [ListForRepo 1; ListForRepo 2]))
  /\ (isLabeled helpers issue6
        (staleLabelOf (Sample.argsWithoutPrMessage false 10) issue6) = true
      /\ filter isUserComment
           (commentsSince remote helpers (Sample.argsWithoutPrMessage false 10)
              issue6 [ListForRepo 1]) = []
      /\ appliedLabelBefore helpers
           (staleLabelDate helpers (Sample.argsWithoutPrMessage false 10) issue6
              [ListForRepo 1])
           (daysBeforeClose (Sample.argsWithoutPrMessage false 10)) = true
      /\ Sample.process [[issue6]] (Sample.argsWithoutPrMessage false 10)
         = (Some 8, [ListForRepo 1; ListForRepo 2]))
  /\ Sample.process [[issue3]] (Sample.args true 10)
     = (Some 6,
        [ListForRepo 1;
         LastAppliedStaleLabel 3 "stale"; ListComments 3 (day 60);
         ListForRepo 2]).
Proof. vm_compute. repeat split; reflexivity. Qed.

(** C5 as stated fails.  Items 2 and 7 carry the stale label of their role
    and a user has commented on them since the label was applied.  Item 2
    is passed over, label and all, when pull requests have no stale
    message; item 7 is marked as work in progress and is passed over; in
    dry-run item 2 is looked up but keeps its label. *)
Lemma revived_items_that_keep_the_label :
  (isLabeled helpers issue2
     (staleLabelOf (Sample.argsWithoutPrMessage false 10) issue2) = true
   /\ filter isUserComment
        (commentsSince remote helpers (Sample.argsWithoutPrMessage false 10) issue2
           [ListForRepo 1]) <> []
   /\ Sample.process [[issue2]] (Sample.argsWithoutPrMessage false 10)
      = (Some 8, [ListForRepo 1; ListForRepo 2]))
  /\ (isLabeled helpers issue7 (staleLabelOf (Sample.args false 10) issue7) = true
      /\ filter isUserComment
           (commentsSince remote helpers (Sample.args false 10) issue7
              [ListForRepo 1]) <> []
      /\ Sample.process [[issue7]] (Sample.args false 10)
         = (Some 8, [ListForRepo 1; ListForRepo 2]))
  /\ Sample.process [[issue2]] (Sample.args true 10)
     = (Some 6,
        [ListForRepo 1;
         LastAppliedStaleLabel 2 "stale pr?"; ListComments 2 (day 90);
         ListForRepo 2]).
Proof. vm_compute. repeat split; try reflexivity; discriminate. Qed.

(** C6 as stated fails.  Items 5 and 1 carry neither the stale nor the
    exempt label of their role and were last updated 40 days ago.  Item 5
    is not marked when pull requests have no stale message, and the run
    sends nothing about it; in dry-run item 1 is not marked either. *)
Lemma quiet_items_that_are_not_marked :
  (isLabeled helpers issue5
     (staleLabelOf (Sample.argsWithoutPrMessage false 10) issue5) = false
   /\ isLabeled helpers issue5
        (exemptLabelOf (Sample.argsWithoutPrMessage false 10) issue5) = false
   /\ wasLastUpdatedBefore helpers issue5
        (daysBeforeStale (Sample.argsWithoutPrMessage false 10)) = true
   /\ Sample.process [[issue5]] (Sample.argsWithoutPrMessage false 10)
      = (Some 8, [ListForRepo 1; ListForRepo 2]))
  /\ (isLabeled helpers issue1 (staleLabelOf (Sample.args true 10) issue1) = false
      /\ isLabeled helpers issue1 (exemptLabelOf (Sample.args true 10) issue1)
         = false
      /\ wasLastUpdatedBefore helpers issue1 (daysBeforeStale (Sample.args true 10))
         = true
      /\ Sample.process [[issue1]] (Sample.args true 10)
         = (Some 8, [ListForRepo 1; ListForRepo 2])).
Proof. vm_compute. repeat split; reflexivity. Qed.

(** C8 as stated fails.  On the page of items 1 to 3 with a budget of 4,
    normal mode sends three lookups (the fetch and the two of item 2) and
    stops there, its budget spent on three mutations as well; the dry run,
    charged for no mutation, goes on to item 3 and sends five lookups.  The
    lookups performed, and what they cost, are not the same in the two
    modes. *)
Lemma dry_run_looks_up_more_than_normal_run :
  Sample.process [[issue1; issue2; issue3]] (Sample.args false 4)
  = (Some 0,
     [ListForRepo 1;
      CreateComment 1 "This issue is stale"; AddLabels 1 ["stale"];
      LastAppliedStaleLabel 2 "stale pr?"; ListComments 2 (day 90);
      RemoveLabel 2 "stale%20pr%3F"])
  /\ Sample.process [[issue1; issue2; issue3]] (Sample.args true 4)
     = (Some 0,
        [ListForRepo 1;
         LastAppliedStaleLabel 2 "stale pr?"; ListComments 2 (day 90);
         LastAppliedStaleLabel 3 "stale"; ListComments 3 (day 60)])
  /\ List.length (lookups (snd (Sample.process [[issue1; issue2; issue3]]
                                  (Sample.args false 4)))) = 3%nat
  /\ List.length (lookups (snd (Sample.process [[issue1; issue2; issue3]]
                                  (Sample.args true 4)))) = 5%nat.
Proof. vm_compute. repeat split; reflexivity. Qed.

(** C9 as stated fails.  The texts 12abc, 3.7, 4,000 and 1e3 are not
    numbers, yet they are read as 12, 3, 4 and 1; with 12abc for the budget
    the run is not failed: it goes through the five sample items and
    mutates them. *)
Lemma number_followed_by_text_is_accepted :
  parseInt "12abc" = Some 12
  /\ parseInt "3.7" = Some 3
  /\ parseInt "4,000" = Some 4
  /\ parseInt "1e3" = Some 1
  /\ run remote helpers (Sample.inputs "12abc") 12
     = (Succeeded,
        [ListForRepo 1;
         CreateComment 1 "This issue is stale"; AddLabels 1 ["stale"];
         LastAppliedStaleLabel 2 "stale pr?"; ListComments 2 (day 90);
         RemoveLabel 2 "stale%20pr%3F";
         LastAppliedStaleLabel 3 "stale"; ListComments 3 (day 60);
         CreateComment 3 "This pull request is stale"; Update 3 "closed";
         CreateComment 5 "This pull request is stale"; AddLabels 5 ["stale pr?"]]).
Proof. vm_compute. repeat split; reflexivity. Qed.

(** A day count padded with a no-break space and a byte order mark is read
    as the number it holds: validation succeeds with 30, and when the other
    day count is in letters it is that one which is reported. *)
Example padded_day_count_is_read :
  (exists args,
     getAndValidateArgs helpers (Cases.inputsWithPaddedDays "60") = Ok args
     /\ daysBeforeStale args = 30 /\ daysBeforeClose args = 60)
  /\ run remote helpers (Cases.inputsWithPaddedDays "abc") 10
     = (Failed "input days-before-close did not parse to a valid integer", []).
Proof. split; [eexists|]; vm_compute; repeat split. Qed.

(** ** The theorems at work *)

(** With a budget of 4 the run of the three-item scenario stops after item
    2, whose handling brings the budget from 1 to -2: item 3 is not looked
    at, and 3 mutations were sent for a budget of 4. *)
Example budget_of_four :
  Sample.process [[issue1; issue2; issue3]] (Sample.args false 4)
  = (Some 0,
     [ListForRepo 1;
      CreateComment 1 "This issue is stale"; AddLabels 1 ["stale"];
      LastAppliedStaleLabel 2 "stale pr?"; ListComments 2 (day 90);
      RemoveLabel 2 "stale%20pr%3F"]).
Proof.
  apply (exhausted_budget_ends_the_run
           (Sample.client (Sample.repository [[issue1; issue2; issue3]]))
           (Sample.utils (Sample.repository [[issue1; issue2; issue3]]))
           (Sample.args false 4) 9 4 1 [] [issue1] [issue3] issue2 1 (-2)
           [ListForRepo 1; CreateComment 1 "This issue is stale";
            AddLabels 1 ["stale"]]);
    solve [reflexivity | discriminate | lia].
Qed.

(** A budget of 1 pays for the fetch and nothing else. *)
Example budget_of_one :
  Sample.process [[issue1; issue2; issue3]] (Sample.args false 1)
  = (Some 0, [ListForRepo 1]).
Proof.
  apply (fetch_stops_the_run
           (Sample.client (Sample.repository [[issue1; issue2; issue3]]))
           (Sample.utils (Sample.repository [[issue1; issue2; issue3]]))
           (Sample.args false 1) 9 1 1 []).
  right. reflexivity.
Qed.

(** The sample repository answers the same whatever was sent before. *)
Example sample_is_static (r : Sample.Repository) :
  staticRemote (Sample.client r) (Sample.utils r).
Proof. repeat split. Qed.

(** Item 3, reached with a budget of 9 after the fetch, is closed. *)
Lemma stale_item_is_closed_witness :
  truthy (staleMessageOf (Sample.args false 10) issue3) = true
  /\ isExempt helpers (Sample.args false 10) issue3 = false
  /\ isLabeled helpers issue3 (staleLabelOf (Sample.args false 10) issue3) = true
  /\ filter isUserComment
       (commentsSince remote helpers (Sample.args false 10) issue3 [ListForRepo 1])
     = []
  /\ appliedLabelBefore helpers
       (staleLabelDate helpers (Sample.args false 10) issue3 [ListForRepo 1])
       (daysBeforeClose (Sample.args false 10)) = true
  /\ exists closeMessage,
       loopBody remote helpers (Sample.args false 10) 9 issue3 [ListForRepo 1]
       = (BudgetTest 5,
          [ListForRepo 1;
           LastAppliedStaleLabel 3 "stale"; ListComments 3 (day 60);
           CreateComment 3 closeMessage; Update 3 "closed"]).
Proof.
  repeat (split; [reflexivity|]).
  exact (stale_item_is_closed remote helpers (Sample.args false 10) 9 issue3
           [ListForRepo 1] eq_refl eq_refl eq_refl eq_refl eq_refl).
Defined.

(** Item 2, reached with a budget of 9 after the fetch, loses its label. *)
Lemma revived_item_loses_stale_label_witness :
  truthy (staleMessageOf (Sample.args false 10) issue2) = true
  /\ isExempt helpers (Sample.args false 10) issue2 = false
  /\ isLabeled helpers issue2 (staleLabelOf (Sample.args false 10) issue2) = true
  /\ filter isUserComment
       (commentsSince remote helpers (Sample.args false 10) issue2 [ListForRepo 1])
     <> []
  /\ loopBody remote helpers (Sample.args false 10) 9 issue2 [ListForRepo 1]
     = (BudgetTest 6,
        [ListForRepo 1;
         LastAppliedStaleLabel 2 "stale pr?"; ListComments 2 (day 90);
         RemoveLabel 2 "stale%20pr%3F"]).
Proof.
  assert (Hactive : filter isUserComment
            (commentsSince remote helpers (Sample.args false 10) issue2
               [ListForRepo 1]) <> []) by (vm_compute; discriminate).
  repeat (split; [reflexivity|]).
  split; [exact Hactive|].
  exact (revived_item_loses_stale_label remote helpers (Sample.args false 10) 9
           issue2 [ListForRepo 1] eq_refl eq_refl eq_refl Hactive).
Defined.

(** Item 1, reached with a budget of 9 after the fetch, is marked stale. *)
Lemma quiet_item_is_marked_stale_witness :
  truthy (staleMessageOf (Sample.args false 10) issue1) = true
  /\ isExempt helpers (Sample.args false 10) issue1 = false
  /\ isLabeled helpers issue1 (staleLabelOf (Sample.args false 10) issue1) = false
  /\ wasLastUpdatedBefore helpers issue1 (daysBeforeStale (Sample.args false 10))
     = true
  /\ loopBody remote helpers (Sample.args false 10) 9 issue1 [ListForRepo 1]
     = (BudgetTest 7,
        [ListForRepo 1;
         CreateComment 1 "This issue is stale"; AddLabels 1 ["stale"]]).
Proof.
  repeat (split; [reflexivity|]).
  exact (quiet_item_is_marked_stale remote helpers (Sample.args false 10) 9
           issue1 [ListForRepo 1] eq_refl eq_refl eq_refl eq_refl).
Defined.

(** Item 4, stale and past the close threshold but pinned, is passed over. *)
Lemma exempt_item_is_left_alone_witness :
  truthy (exemptLabelOf (Sample.args false 10) issue4) = true
  /\ isLabeled helpers issue4 (exemptLabelOf (Sample.args false 10) issue4) = true
  /\ loopBody remote helpers (Sample.args false 10) 9 issue4 [ListForRepo 1]
     = (ContinueStmt, [ListForRepo 1])
  /\ forIssues remote helpers (Sample.args false 10) [issue4; issue1] 9
       [ListForRepo 1]
     = forIssues remote helpers (Sample.args false 10) [issue1] 9 [ListForRepo 1].
Proof.
  split; [reflexivity|]. split; [reflexivity|].
  exact (exempt_item_is_left_alone remote helpers (Sample.args false 10) 9
           issue4 [issue1] [ListForRepo 1] eq_refl eq_refl).
Defined.

(** In dry-run item 3, stale for 40 days and quiet, has its two lookups
    sent and charged and is not closed; and the dry run of the five items
    begins with the fetch of page 1 and sends no mutation. *)
Lemma dry_run_reads_and_never_writes_witness :
  DRY_RUN (Sample.args true 10) = true
  /\ loopBody remote helpers (Sample.args true 10) 9 issue3 [ListForRepo 1]
     = (BudgetTest 7,
        [ListForRepo 1; LastAppliedStaleLabel 3 "stale"; ListComments 3 (day 60)])
  /\ (exists rest,
        snd (processIssues remote helpers 10 (Sample.args true 10) 10 1 [])
        = [] ++ ListForRepo 1 :: rest)
  /\ exists new,
       snd (processIssues remote helpers 10 (Sample.args true 10) 10 1 [])
       = [] ++ new
       /\ mutations new = [].
Proof.
  split; [reflexivity|].
  destruct (dry_run_reads_and_never_writes remote helpers (Sample.args true 10)
              eq_refl) as (Hfetch & Hitem & _ & Hrun & _).
  split; [rewrite Hitem; reflexivity|].
  split; [exact (Hfetch 9%nat 10 1 [])|].
  destruct (Hrun 10%nat 10 1 []) as (new & Hlog & Hmut & _).
  exists new. split; assumption.
Defined.

(** A budget spelled out in letters fails the run before any request. *)
Lemma non_numeric_input_fails_before_any_call_witness :
  In "operations-per-run"
     ["days-before-stale"; "days-before-close"; "operations-per-run"]
  /\ parseInt (Sample.inputs "ten" "operations-per-run") = None
  /\ exists message,
       run remote helpers (Sample.inputs "ten") 10 = (Failed message, [])
       /\ exitCode (fst (run remote helpers (Sample.inputs "ten") 10)) = Some 1.
Proof.
  assert (Hin : In "operations-per-run"
                   ["days-before-stale"; "days-before-close"; "operations-per-run"])
    by (simpl; auto).
  split; [exact Hin|]. split; [reflexivity|].
  exact (non_numeric_input_fails_before_any_call remote helpers
           (Sample.inputs "ten") 10 "operations-per-run" Hin eq_refl).
Defined.

(** A budget of -5 is accepted, and the first item of the page is marked
    stale all the same. *)
Lemma nonpositive_budget_is_accepted_and_spent_witness :
  parseInt (Sample.inputs "-5" "operations-per-run") = Some (-5)
  /\ (exists args,
        getAndValidateArgs helpers (Sample.inputs "-5") = Ok args
        /\ daysBeforeStale args = 30
        /\ daysBeforeClose args = 30
        /\ operationsPerRun args = -5
        /\ (-5 <= 0 ->
            forall (fuel : nat) (issue : Issue) (rest : list Issue),
              issues_listForRepo remote [] 1 = issue :: rest ->
              exists more,
                snd (run remote helpers (Sample.inputs "-5") (S fuel))
                = snd (loopBody remote helpers args (-5 - 1) issue [ListForRepo 1])
                  ++ more))
  /\ run remote helpers (Sample.inputs "-5") 10
     = (Succeeded,
        [ListForRepo 1; CreateComment 1 "This issue is stale"; AddLabels 1 ["stale"]]).
Proof.
  split; [reflexivity|]. split; [|vm_compute; reflexivity].
  exact (nonpositive_budget_is_accepted_and_spent remote helpers
           (Sample.inputs "-5") 30 30 (-5)
           eq_refl eq_refl eq_refl eq_refl eq_refl eq_refl).
Defined.

End Examples.

(** * Further properties of the processor *)

Section DecisionFacts.

Variable client : Client.
Variable utils : Utils.

Local Abbreviation loopBody := (loopBody client utils).
Local Abbreviation forIssues := (forIssues client utils).
Local Abbreviation processIssues := (processIssues client utils).
Local Abbreviation staleLabelDate := (staleLabelDate utils).
Local Abbreviation commentsSince := (commentsSince client utils).

Lemma filter_nonempty_existsb {A : Type} (f : A -> bool) (l : list A) :
  (0 <? List.length (filter f l))%nat = existsb f l.
Proof.
  induction l as [|a l IH]; [reflexivity|].
  simpl. destruct (f a); [reflexivity|exact IH].
Qed.

(** X1.  The activity test sends one comment listing, for the item and since
    the date it is given, and answers [true] exactly when the listing holds
    a comment whose author is of type "User": the comments of bots, however
    many, do not count as activity. *)
Theorem activity_is_a_user_comment
    (issue : Issue) (date : Z) (log : list Call) :
  snd (issueHasActivitySinceStaleLabelWasApplied client issue date log)
  = log ++ [ListComments (number issue) date]
  /\ (fst (issueHasActivitySinceStaleLabelWasApplied client issue date log) = true
      <-> exists comment,
            In comment (issues_listComments client log (number issue) date)
            /\ user_type comment = "User").
Proof.
  unfold issueHasActivitySinceStaleLabelWasApplied, bind, await, ret. simpl.
  split; [reflexivity|].
  rewrite filter_nonempty_existsb, existsb_exists.
  unfold isUserComment.
  split; intros (comment & Hin & Huser); exists comment; split; auto.
  - apply String.eqb_eq, Huser.
  - apply String.eqb_eq, Huser.
Qed.

(** X2.  A stale-labelled item that nobody has commented on and whose label
    is not yet older than the close threshold is left as it is: the two
    lookups are sent and charged, in dry-run as in normal mode, and no
    mutation follows. *)
Theorem recently_stale_item_is_kept
    (args : Args) (operationsLeft : Z) (issue : Issue) (log : list Call) :
  truthy (staleMessageOf args issue) = true ->
  isExempt utils args issue = false ->
  isLabeled utils issue (staleLabelOf args issue) = true ->
  filter isUserComment (commentsSince args issue log) = [] ->
  appliedLabelBefore utils (staleLabelDate args issue log) (daysBeforeClose args)
    = false ->
  loopBody args operationsLeft issue log
  = (BudgetTest (operationsLeft - 2),
     log ++ [LastAppliedStaleLabel (number issue) (staleLabelOf args issue);
             ListComments (number issue) (staleLabelDate args issue log)]).
Proof.
  unfold commentsSince, staleLabelDate. intros Hmsg Hex Hstale Hquiet Hrecent.
  unfold loopBody; run_remote. rewrite Hmsg, Hex, Hstale. simpl.
  rewrite Hquiet. simpl. rewrite Hrecent. simpl.
  rewrite <- app_assoc. simpl. do 2 f_equal. lia.
Qed.

(** X3.  An item without the stale label, not exempt, and updated within the
    stale threshold is left untouched: nothing is sent about it and nothing
    is charged, but its iteration reaches the budget test (it does not end
    in [continue]). *)
Theorem active_item_is_untouched
    (args : Args) (operationsLeft : Z) (issue : Issue) (log : list Call) :
  truthy (staleMessageOf args issue) = true ->
  isExempt utils args issue = false ->
  isLabeled utils issue (staleLabelOf args issue) = false ->
  wasLastUpdatedBefore utils issue (daysBeforeStale args) = false ->
  loopBody args operationsLeft issue log = (BudgetTest operationsLeft, log).
Proof.
  intros Hmsg Hex Hfresh Hactive.
  unfold loopBody; run_remote. rewrite Hmsg, Hex, Hfresh, Hactive. reflexivity.
Qed.

(** X4.  When the stale message of an item's role is empty the item is
    passed over before any label is looked at: nothing is sent, nothing is
    charged, and the loop goes on with the rest of the page on the same
    budget, whatever the labels and the age of the item. *)
Theorem item_without_message_is_skipped
    (args : Args) (operationsLeft : Z) (issue : Issue) (rest : list Issue)
    (log : list Call) :
  truthy (staleMessageOf args issue) = false ->
  loopBody args operationsLeft issue log = (ContinueStmt, log)
  /\ forIssues args (issue :: rest) operationsLeft log
     = forIssues args rest operationsLeft log.
Proof.
  intros Hmsg.
  assert (Hbody : loopBody args operationsLeft issue log = (ContinueStmt, log)).
  { unfold loopBody. rewrite Hmsg. reflexivity. }
  split; [exact Hbody|].
  simpl. unfold bind. rewrite Hbody. reflexivity.
Qed.

(** X5.  Whatever the item, one iteration sends at most the two lookups
    followed by at most one action, all about that item: nothing, or (with
    no lookup before) the stale comment of the role and the stale label of
    the role, or (after the lookups) the removal of the stale label, or
    (after the lookups) a comment and the closing.  An item is never both
    marked stale and closed, nor both closed and relieved of its label, in
    one pass; and an action is only sent outside dry-run. *)
Theorem one_action_per_item
    (args : Args) (operationsLeft : Z) (issue : Issue) (log : list Call) :
  exists looks action,
    snd (loopBody args operationsLeft issue log) = log ++ looks ++ action
    /\ (looks = []
        \/ looks = [LastAppliedStaleLabel (number issue) (staleLabelOf args issue);
                    ListComments (number issue) (staleLabelDate args issue log)])
    /\ (action = []
        \/ (DRY_RUN args = false /\ looks = []
            /\ action = [CreateComment (number issue) (staleMessageOf args issue);
                         AddLabels (number issue) [staleLabelOf args issue]])
        \/ (DRY_RUN args = false /\ looks <> []
            /\ action = [RemoveLabel (number issue)
                           (encodeURIComponent (staleLabelOf args issue))])
        \/ (DRY_RUN args = false /\ looks <> []
            /\ exists closeMessage,
                 action = [CreateComment (number issue) closeMessage;
                           Update (number issue) "closed"])).
Proof.
  unfold loopBody, staleLabelDate; run_remote.
  destruct (DRY_RUN args) eqn:Hdry; split_ifs; simpl; rewrite <- ?app_assoc; simpl.
  all: try (exists [], []; rewrite app_nil_r; auto; fail).
  all: try (eexists [_; _], []; split; [reflexivity|]; auto; fail).
  all: try (exists []; eexists [_; _]; split; [reflexivity|]; auto 6; fail).
  all: try (eexists [_; _], [_]; split; [reflexivity|];
            split; [auto|]; right; right; left;
            repeat split; auto; discriminate).
  all: eexists [_; _], [_; _]; split; [reflexivity|];
       split; [auto|]; right; right; right;
       repeat split; eauto; discriminate.
Qed.

(** X6.  Each of the three mutating helpers returns the number of requests
    it has sent, all of them mutations of the item it is given: 2, 1 and 2
    in normal mode, and none in dry-run, where the log is left as it was. *)
Theorem helpers_return_what_they_sent
    (issue : Issue) (message label : string) (dryRun : bool) (log : list Call) :
  let sent (result : Z * list Call) (new : list Call) :=
    snd result = log ++ new
    /\ fst result = Z.of_nat (List.length new)
    /\ Forall (fun c => isMutation c = true /\ target c = Some (number issue)) new
    /\ (dryRun = true -> new = []) in
  (exists new, sent (addStaleLabel issue message label dryRun log) new)
  /\ (exists new, sent (removeStaleLabel issue label dryRun log) new)
  /\ (exists new, sent (closeIssue issue message dryRun log) new).
Proof.
  unfold addStaleLabel, removeStaleLabel, closeIssue, bind, await, ret.
  destruct dryRun; simpl; rewrite <- ?app_assoc; simpl;
    repeat split;
    first [ exists []; rewrite app_nil_r; repeat split; auto; fail
          | eexists; split; [reflexivity|];
            repeat split; repeat constructor; auto; discriminate ].
Qed.

End DecisionFacts.

Section RunFacts.

Variable client : Client.
Variable utils : Utils.

Local Abbreviation loopBody := (loopBody client utils).
Local Abbreviation forIssues := (forIssues client utils).
Local Abbreviation processIssues := (processIssues client utils).

(** ** Lifting a property of the requests from one iteration to a run *)

Lemma forIssues_Forall (P : Call -> Prop) (args : Args) (issues : list Issue) :
  (forall issue, In issue issues ->
     forall ops log, exists new,
       snd (loopBody args ops issue log) = log ++ new /\ Forall P new) ->
  forall ops log, exists new,
    snd (forIssues args issues ops log) = log ++ new /\ Forall P new.
Proof.
  induction issues as [|issue rest IH]; intros Hbody ops log.
  - exists []. simpl. rewrite app_nil_r. auto.
  - destruct (Hbody issue (or_introl eq_refl) ops log) as (new1 & Hlog1 & HP1).
    assert (Hrest : forall ops' log', exists new,
               snd (forIssues args rest ops' log') = log' ++ new /\ Forall P new).
    { apply IH. intros i Hi. apply Hbody. right. exact Hi. }
    simpl. unfold bind.
    destruct (loopBody args ops issue log) as [it log1]. simpl in Hlog1. subst log1.
    assert (Hgo : forall ops', exists new,
               snd (forIssues args rest ops' (log ++ new1)) = log ++ new
               /\ Forall P new).
    { intros ops'. destruct (Hrest ops' (log ++ new1)) as (new2 & Hlog2 & HP2).
      exists (new1 ++ new2). rewrite Hlog2, app_assoc. split; [reflexivity|].
      apply Forall_app. auto. }
    destruct it as [|ops1]; [apply Hgo|].
    destruct (ops1 <=? 0); [|apply Hgo].
    exists new1. auto.
Qed.

Lemma processIssues_Forall (P : Call -> Prop) (args : Args) :
  (forall page, P (ListForRepo page)) ->
  (forall issue log0 page0, In issue (issues_listForRepo client log0 page0) ->
     forall ops log, exists new,
       snd (loopBody args ops issue log) = log ++ new /\ Forall P new) ->
  forall fuel ops page log, exists new,
    snd (processIssues fuel args ops page log) = log ++ new /\ Forall P new.
Proof.
  intros Hfetch Hbody.
  induction fuel as [|fuel IH]; intros ops page log.
  - exists []. simpl. rewrite app_nil_r. auto.
  - simpl. unfold bind, await.
    destruct ((List.length (issues_listForRepo client log page) =? 0)%nat
              || (ops - 1 =? 0)).
    + exists [ListForRepo page]. simpl. auto.
    + destruct (forIssues_Forall P args (issues_listForRepo client log page)
                  (fun issue Hin => Hbody issue log page Hin)
                  (ops - 1) (log ++ [ListForRepo page])) as (new1 & Hlog1 & HP1).
      destruct (forIssues args (issues_listForRepo client log page) (ops - 1)
                  (log ++ [ListForRepo page])) as [exit log1].
      simpl in Hlog1. subst log1.
      destruct exit as [|ops1].
      * exists ([ListForRepo page] ++ new1). simpl. rewrite <- app_assoc.
        split; [reflexivity|]. constructor; auto.
      * destruct (IH ops1 (page + 1) ((log ++ [ListForRepo page]) ++ new1))
          as (new2 & Hlog2 & HP2).
        exists ([ListForRepo page] ++ new1 ++ new2).
        rewrite Hlog2, <- !app_assoc. split; [reflexivity|].
        simpl. constructor; [apply Hfetch|]. apply Forall_app. auto.
Qed.

(** ** What a run sends *)

Lemma loopBody_configured (args : Args) (ops : Z) (issue : Issue) (log : list Call) :
  exists new,
    snd (loopBody args ops issue log) = log ++ new
    /\ Forall (isConfigured args) new.
Proof.
  unfold loopBody, staleMessageOf, staleLabelOf; run_remote.
  destruct (isPullRequest issue); split_ifs; simpl; rewrite <- ?app_assoc; simpl;
    eexists; (split; [reflexivity || (symmetry; apply app_nil_r)|]);
    repeat (apply Forall_cons; [simpl; auto|]); apply Forall_nil.
Qed.

(** X7.  Whatever the repository answers, every mutation a run sends is one
    the configuration provides for: a comment carrying one of the two stale
    messages, the addition of one of the two stale labels and nothing else,
    the removal of one of the two stale labels, or the transition to the
    closed state.  A run never adds or removes any other label (the exempt
    labels in particular), never posts any other text and never reopens an
    item. *)
Theorem run_sends_configured_mutations
    (args : Args) (fuel : nat) (operationsLeft page : Z) (log : list Call) :
  exists new,
    snd (processIssues fuel args operationsLeft page log) = log ++ new
    /\ Forall (isConfigured args) new.
Proof.
  apply processIssues_Forall.
  - intros p. exact I.
  - intros issue _ _ _ ops log'. apply loopBody_configured.
Qed.

Lemma loopBody_passes_over (args : Args) (ops : Z) (issue : Issue) (log : list Call) :
  truthy (staleMessageOf args issue) = false \/ isExempt utils args issue = true ->
  loopBody args ops issue log = (ContinueStmt, log).
Proof.
  unfold loopBody. intros [-> | ->]; simpl; [reflexivity|].
  destruct (negb (truthy (staleMessageOf args issue))); reflexivity.
Qed.

(** X8.  Every request a run sends about an item concerns an item that some
    fetched page listed, whose role has a stale message and which is not
    exempt: about the items it passes over, and about items no page listed,
    a run sends nothing at all, not even a lookup. *)
Theorem run_only_addresses_eligible_items
    (args : Args) (fuel : nat) (operationsLeft page : Z) (log : list Call) :
  exists new,
    snd (processIssues fuel args operationsLeft page log) = log ++ new
    /\ Forall (aboutEligibleItem client utils args) new.
Proof.
  apply processIssues_Forall.
  - intros p. exact I.
  - intros issue log0 page0 Hin ops log'.
    destruct (truthy (staleMessageOf args issue)) eqn:Hmsg;
      [destruct (isExempt utils args issue) eqn:Hex|].
    + exists []. rewrite loopBody_passes_over by auto.
      simpl. rewrite app_nil_r. auto.
    + destruct (loopBody_log client utils args ops issue log')
        as (new & Hlog & Htarget & _).
      exists new. split; [exact Hlog|].
      eapply Forall_impl; [|exact Htarget].
      intros c Hc. unfold aboutEligibleItem. rewrite Hc.
      exists log0, page0, issue. auto.
    + exists []. rewrite loopBody_passes_over by auto.
      simpl. rewrite app_nil_r. auto.
Qed.

(** ** The order of the page fetches *)

Lemma fetchesFrom_S (page : Z) (count : nat) :
  fetchesFrom page (S count) = ListForRepo page :: fetchesFrom (page + 1) count.
Proof.
  unfold fetchesFrom. simpl. rewrite Z.add_0_r. f_equal.
  rewrite <- seq_shift, map_map. apply map_ext.
  intros i. f_equal. lia.
Qed.

Lemma fetches_app (l1 l2 : list Call) :
  fetches (l1 ++ l2) = fetches l1 ++ fetches l2.
Proof. apply filter_app. Qed.

Lemma forIssues_fetches_nothing (args : Args) (issues : list Issue)
      (ops : Z) (log : list Call) :
  exists new,
    snd (forIssues args issues ops log) = log ++ new /\ fetches new = [].
Proof.
  destruct (forIssues_Forall (fun c => isFetch c = false) args issues) with
    (ops := ops) (log := log) as (new & Hlog & Hnone).
  - intros issue _ ops' log'.
    destruct (loopBody_log client utils args ops' issue log')
      as (new & Hlog & Htarget & _).
    exists new. split; [exact Hlog|].
    eapply Forall_impl; [|exact Htarget].
    intros [] Hc; try reflexivity. discriminate Hc.
  - exists new. split; [exact Hlog|].
    clear Hlog. unfold fetches.
    induction Hnone as [|c l Hc _ IH]; [reflexivity|].
    simpl. rewrite Hc. exact IH.
Qed.

(** The fetches of a run, in order. *)
Lemma processIssues_fetches (args : Args) (fuel : nat) :
  forall (operationsLeft page : Z) (log : list Call),
  exists new count,
    snd (processIssues fuel args operationsLeft page log) = log ++ new
    /\ fetches new = fetchesFrom page count
    /\ (count <= fuel)%nat
    /\ (fuel <> O -> (1 <= count)%nat).
Proof.
  induction fuel as [|fuel IH]; intros ops page log.
  - exists [], O. simpl. rewrite app_nil_r. repeat split; auto. congruence.
  - simpl. unfold bind, await.
    destruct ((List.length (issues_listForRepo client log page) =? 0)%nat
              || (ops - 1 =? 0)).
    + exists [ListForRepo page], 1%nat. simpl. rewrite fetchesFrom_S.
      repeat split; auto; lia.
    + destruct (forIssues_fetches_nothing args (issues_listForRepo client log page)
                  (ops - 1) (log ++ [ListForRepo page])) as (new1 & Hlog1 & Hnone).
      destruct (forIssues args (issues_listForRepo client log page) (ops - 1)
                  (log ++ [ListForRepo page])) as [exit log1].
      simpl in Hlog1. subst log1.
      destruct exit as [|ops1].
      * exists ([ListForRepo page] ++ new1), 1%nat. simpl.
        rewrite <- app_assoc, fetchesFrom_S.
        change (fetches (ListForRepo page :: new1))
          with (ListForRepo page :: fetches new1).
        rewrite Hnone. repeat split; auto; lia.
      * destruct (IH ops1 (page + 1) ((log ++ [ListForRepo page]) ++ new1))
          as (new2 & count & Hlog2 & Hfetch2 & Hcount & _).
        exists ([ListForRepo page] ++ new1 ++ new2), (S count).
        rewrite Hlog2, <- !app_assoc, fetchesFrom_S.
        change (fetches ([ListForRepo page] ++ new1 ++ new2))
          with (ListForRepo page :: fetches (new1 ++ new2)).
        rewrite fetches_app, Hnone, Hfetch2.
        repeat split; auto; lia.
Qed.

(** X9.  The pages a run fetches are consecutive, from the page it starts
    at: no page is skipped, fetched twice or fetched out of order; there is
    at most one fetch per unit of fuel and, as soon as there is fuel, at
    least one, however small the budget. *)
Theorem run_fetches_consecutive_pages
    (args : Args) (fuel : nat) (operationsLeft page : Z) (log : list Call) :
  exists new count,
    snd (processIssues fuel args operationsLeft page log) = log ++ new
    /\ fetches new = fetchesFrom page count
    /\ (count <= fuel)%nat
    /\ (fuel <> O -> (1 <= count)%nat).
Proof. apply processIssues_fetches. Qed.

End RunFacts.

Section BudgetFacts.

Variable client : Client.
Variable utils : Utils.

Local Abbreviation loopBody := (loopBody client utils).
Local Abbreviation forIssues := (forIssues client utils).
Local Abbreviation processIssues := (processIssues client utils).

(** Where no mutation is sent in dry-run, the cost of a stretch of log is
    its length. *)
Lemma charge_length (dryRun : bool) (new : list Call) :
  (dryRun = true -> mutations new = []) ->
  charge dryRun new = Z.of_nat (List.length new).
Proof.
  intros Hdry. unfold charge. rewrite (length_split_calls new).
  destruct dryRun; [rewrite Hdry by reflexivity; simpl|]; lia.
Qed.

(** One iteration costs at most 4, and the budget goes down by its cost. *)
Lemma loopBody_cost (args : Args) (ops : Z) (issue : Issue) (log : list Call) :
  exists new,
    snd (loopBody args ops issue log) = log ++ new
    /\ (DRY_RUN args = true -> mutations new = [])
    /\ (fst (loopBody args ops issue log) = ContinueStmt -> new = [])
    /\ budgetAfter ops (fst (loopBody args ops issue log))
       = ops - charge (DRY_RUN args) new
    /\ 0 <= charge (DRY_RUN args) new <= 4.
Proof.
  unfold loopBody, charge; run_remote.
  destruct (DRY_RUN args) eqn:Hdry; split_ifs; simpl;
    rewrite <- ?app_assoc; simpl;
    eexists; (split; [reflexivity || (symmetry; apply app_nil_r)|]);
    simpl; repeat split; try lia; try discriminate; try reflexivity.
Qed.

Lemma forIssues_cost (args : Args) (issues : list Issue) :
  forall (ops : Z) (log : list Call),
    1 <= ops ->
    exists new,
      snd (forIssues args issues ops log) = log ++ new
      /\ (DRY_RUN args = true -> mutations new = [])
      /\ match fst (forIssues args issues ops log) with
         | EndOfPage ops' => 1 <= ops' /\ ops' = ops - charge (DRY_RUN args) new
         | Return0 => charge (DRY_RUN args) new <= ops + 3
         end.
Proof.
  induction issues as [|issue rest IH]; intros ops log Hpos.
  - exists []. simpl. rewrite app_nil_r. unfold charge. simpl.
    destruct (DRY_RUN args); repeat split; simpl; lia.
  - simpl. unfold bind.
    destruct (loopBody_cost args ops issue log)
      as (new1 & Hlog & Hdry & Hcont & Hcharge & Hmax).
    destruct (loopBody args ops issue log) as [it log1]; simpl in *; subst log1.
    destruct it as [|ops1]; simpl in Hcharge.
    + rewrite (Hcont eq_refl), app_nil_r. apply IH, Hpos.
    + destruct (ops1 <=? 0) eqn:Hle.
      * exists new1. simpl. repeat split; auto. lia.
      * apply Z.leb_gt in Hle.
        destruct (IH ops1 (log ++ new1) ltac:(lia)) as (new2 & Hlog2 & Hdry2 & Hend).
        exists (new1 ++ new2). rewrite Hlog2, app_assoc.
        split; [reflexivity|]. split.
        { intros Hd. rewrite mutations_app, Hdry, Hdry2 by assumption. reflexivity. }
        rewrite charge_app.
        destruct (fst (forIssues args rest ops1 (log ++ new1))); lia.
Qed.

Lemma processIssues_cost (args : Args) (fuel : nat) :
  forall (ops page : Z) (log : list Call),
    1 <= ops ->
    exists new,
      snd (processIssues fuel args ops page log) = log ++ new
      /\ (DRY_RUN args = true -> mutations new = [])
      /\ charge (DRY_RUN args) new <= ops + 3.
Proof.
  induction fuel as [|fuel IH]; intros ops page log Hpos.
  - exists []. simpl. rewrite app_nil_r. unfold charge. simpl.
    destruct (DRY_RUN args); repeat split; simpl; lia.
  - simpl. unfold bind, await.
    assert (Hfetch : charge (DRY_RUN args) [ListForRepo page] = 1)
      by (destruct (DRY_RUN args); reflexivity).
    destruct ((List.length (issues_listForRepo client log page) =? 0)%nat
              || (ops - 1 =? 0)) eqn:Hstop.
    + exists [ListForRepo page]. simpl. rewrite Hfetch. repeat split; auto. lia.
    + apply orb_false_iff in Hstop. destruct Hstop as [_ Hne]. apply Z.eqb_neq in Hne.
      destruct (forIssues_cost args (issues_listForRepo client log page) (ops - 1)
                  (log ++ [ListForRepo page]) ltac:(lia))
        as (new1 & Hlog1 & Hdry1 & Hend).
      destruct (forIssues args (issues_listForRepo client log page) (ops - 1)
                  (log ++ [ListForRepo page])) as [exit log1]; simpl in *; subst log1.
      destruct exit as [|ops1].
      * exists ([ListForRepo page] ++ new1). rewrite <- app_assoc.
        split; [reflexivity|]. split; [exact Hdry1|].
        rewrite charge_app, Hfetch. lia.
      * destruct Hend as [Hpos1 Hops1].
        destruct (IH ops1 (page + 1) ((log ++ [ListForRepo page]) ++ new1) Hpos1)
          as (new2 & Hlog2 & Hdry2 & Hcost2).
        exists ([ListForRepo page] ++ new1 ++ new2).
        split; [rewrite Hlog2, <- !app_assoc; reflexivity|]. split.
        { intros Hd.
          change (mutations ([ListForRepo page] ++ new1 ++ new2))
            with (mutations (new1 ++ new2)).
          rewrite mutations_app, Hdry1, Hdry2 by assumption. reflexivity. }
        rewrite !charge_app, Hfetch. lia.
Qed.

(** The requests of a run started with a positive budget. *)
Lemma processIssues_requests
    (args : Args) (fuel : nat) (operationsLeft page : Z) (log : list Call) :
  1 <= operationsLeft ->
  (Z.to_nat operationsLeft <= fuel)%nat ->
  exists v new,
    processIssues fuel args operationsLeft page log = (Some v, log ++ new)
    /\ 0 <= v <= operationsLeft - 1
    /\ Z.of_nat (List.length (mutations new)) <= operationsLeft
    /\ Z.of_nat (List.length new) <= operationsLeft + 3.
Proof.
  intros Hpos Hfuel.
  destruct (positive_budget_is_respected client utils args fuel operationsLeft
              page log Hpos Hfuel) as (v & new & Hrun & Hv & Hmut).
  destruct (processIssues_cost args fuel operationsLeft page log Hpos)
    as (new' & Hlog' & Hdry' & Hcost).
  destruct (processIssues_budget client utils args fuel operationsLeft page log)
    as (new'' & Hlog'' & _ & Haccount & _).
  rewrite Hrun in Hlog', Hlog'', Haccount. simpl in *.
  apply app_inv_head in Hlog', Hlog''. subst new' new''.
  rewrite (charge_length _ _ Hdry') in Hcost, Haccount.
  exists v, new. repeat split; auto; try lia.
  destruct fuel as [|fuel]; [simpl in Hrun; discriminate|].
  destruct (processIssues_fetches client utils args (S fuel)
              operationsLeft page log) as (new' & count & Hlog' & Hfetch & _ & Hone).
  rewrite Hrun in Hlog'. simpl in Hlog'. apply app_inv_head in Hlog'. subst new'.
  specialize (Hone ltac:(discriminate)).
  assert (Hlen : (1 <= List.length new)%nat).
  { assert (Hf : (1 <= List.length (fetches new))%nat).
    { rewrite Hfetch. unfold fetchesFrom. rewrite length_map, length_seq. exact Hone. }
    unfold fetches in Hf.
    pose proof (filter_length_le isFetch new). lia. }
  destruct (Haccount v eq_refl) as [->|[-> _]]; lia.
Qed.

(** X10.  A run started with a budget of at least 1, given fuel for as many
    pages as the budget, returns; what it returns is between 0 and the
    budget less one; it has sent no more mutations than the budget; and all
    in all it has sent at most three requests more than the budget, the
    overdraft of the last item handled. *)
Theorem positive_budget_bounds_requests
    (args : Args) (fuel : nat) (operationsLeft page : Z) (log : list Call) :
  1 <= operationsLeft ->
  (Z.to_nat operationsLeft <= fuel)%nat ->
  exists v new,
    processIssues fuel args operationsLeft page log = (Some v, log ++ new)
    /\ 0 <= v <= operationsLeft - 1
    /\ Z.of_nat (List.length (mutations new)) <= operationsLeft
    /\ Z.of_nat (List.length new) <= operationsLeft + 3.
Proof. apply processIssues_requests. Qed.

(** X11.  In both modes, what a run returns accounts for every request it
    sent at one unit each (the scan of an item's history counting as one):
    it is the budget less the number of requests, or 0 when the run stopped
    on an exhausted budget, in which case the requests are at least as many
    as the budget. *)
Theorem run_returns_budget_less_requests
    (args : Args) (fuel : nat) (operationsLeft page : Z) (log : list Call) :
  exists new,
    snd (processIssues fuel args operationsLeft page log) = log ++ new
    /\ match fst (processIssues fuel args operationsLeft page log) with
       | Some v =>
           v = operationsLeft - Z.of_nat (List.length new)
           \/ (v = 0 /\ operationsLeft <= Z.of_nat (List.length new))
       | None => True
       end.
Proof.
  destruct (processIssues_budget client utils args fuel operationsLeft page log)
    as (new & Hlog & Hdry & Haccount & _).
  exists new. split; [exact Hlog|].
  destruct (fst (processIssues fuel args operationsLeft page log)) as [v|]; [|exact I].
  rewrite (charge_length _ _ Hdry) in Haccount.
  destruct (Haccount v eq_refl) as [->|[-> Hle]]; [left|right]; auto. split; lia.
Qed.

(** X12.  On a repository whose pages are empty from some page on, every
    run returns, whatever its budget (zero and negative budgets included):
    one unit of fuel per page up to that one is enough. *)
Theorem run_returns_on_finite_repository
    (args : Args) (lastPage : Z) :
  (forall log page, lastPage <= page -> issues_listForRepo client log page = []) ->
  forall (fuel : nat) (operationsLeft page : Z) (log : list Call),
    (Z.to_nat (lastPage - page) < fuel)%nat ->
    exists v, fst (processIssues fuel args operationsLeft page log) = Some v.
Proof.
  intros Hfinite.
  induction fuel as [|fuel IH]; intros ops page log Hfuel; [lia|].
  simpl. unfold bind, await.
  destruct (Z_le_gt_dec lastPage page) as [Hpast|Hbefore].
  - rewrite (Hfinite log page Hpast). simpl. eexists; reflexivity.
  - destruct ((List.length (issues_listForRepo client log page) =? 0)%nat
              || (ops - 1 =? 0)); [eexists; reflexivity|].
    destruct (forIssues args (issues_listForRepo client log page) (ops - 1)
                (log ++ [ListForRepo page])) as [[|ops1] log1];
      [eexists; reflexivity|].
    apply IH. lia.
Qed.

(** X20.  The loop over a page composes: handling the items [before] and
    [after] in one page is handling [before] and then, unless that returned
    0, handling [after] with the budget and the log that were left; once the
    loop has returned 0 nothing of what follows on the page is looked at. *)
Theorem page_loop_composes (args : Args) (before after : list Issue)
    (operationsLeft : Z) (log : list Call) :
  forIssues args (before ++ after) operationsLeft log
  = match forIssues args before operationsLeft log with
    | (Return0, log') => (Return0, log')
    | (EndOfPage operationsLeft', log') =>
        forIssues args after operationsLeft' log'
    end.
Proof. apply forIssues_app. Qed.

Lemma forIssues_passes_over (args : Args) (issues : list Issue) :
  Forall (fun issue => truthy (staleMessageOf args issue) = false
                       \/ isExempt utils args issue = true) issues ->
  forall ops log, forIssues args issues ops log = (EndOfPage ops, log).
Proof.
  induction 1 as [|issue rest Hskip _ IH]; intros ops log; [reflexivity|].
  simpl. unfold bind.
  rewrite (loopBody_passes_over client utils args ops issue log Hskip). apply IH.
Qed.

(** One page of a run. *)
Lemma processIssues_page (args : Args) (fuel : nat) (ops page : Z) (log : list Call) :
  processIssues (S fuel) args ops page log
  = if (List.length (issues_listForRepo client log page) =? 0)%nat || (ops - 1 =? 0)
    then (Some (ops - 1), log ++ [ListForRepo page])
    else
      match forIssues args (issues_listForRepo client log page) (ops - 1)
              (log ++ [ListForRepo page]) with
      | (Return0, log') => (Some 0, log')
      | (EndOfPage ops', log') => processIssues fuel args ops' (page + 1) log'
      end.
Proof.
  simpl. unfold bind, await, ret.
  destruct ((List.length (issues_listForRepo client log page) =? 0)%nat
            || (ops - 1 =? 0)); [reflexivity|].
  destruct (forIssues args (issues_listForRepo client log page) (ops - 1)
              (log ++ [ListForRepo page])) as [[|ops'] log']; reflexivity.
Qed.

(** A run with fuel begins with the fetch of its page. *)
Lemma processIssues_begins_with_fetch (args : Args) (fuel : nat) (ops page : Z)
      (log : list Call) :
  exists rest,
    snd (processIssues (S fuel) args ops page log) = log ++ ListForRepo page :: rest.
Proof.
  rewrite processIssues_page.
  destruct ((List.length (issues_listForRepo client log page) =? 0)%nat
            || (ops - 1 =? 0)); [exists []; reflexivity|].
  destruct (forIssues_budget client utils args (issues_listForRepo client log page)
              (ops - 1) (log ++ [ListForRepo page])) as (new1 & Hlog1 & _).
  destruct (forIssues args (issues_listForRepo client log page) (ops - 1)
              (log ++ [ListForRepo page])) as [[|ops1] log1];
    simpl in Hlog1; subst log1.
  - exists new1. simpl. rewrite <- app_assoc. reflexivity.
  - destruct (processIssues_budget client utils args fuel ops1 (page + 1)
                ((log ++ [ListForRepo page]) ++ new1)) as (new2 & Hlog2 & _).
    exists (new1 ++ new2). rewrite Hlog2, <- !app_assoc. reflexivity.
Qed.

(** X13.  A page that is not empty and all of whose items are passed over
    (no stale message for their role, or exempt) costs the fetch and
    nothing else, and never stops the run: unless the fetch brought the
    budget to exactly 0, the run goes on with the next page, also when the
    budget is below zero. *)
Theorem passed_over_page_costs_one
    (args : Args) (fuel : nat) (operationsLeft page : Z) (log : list Call) :
  issues_listForRepo client log page <> [] ->
  Forall (fun issue => truthy (staleMessageOf args issue) = false
                       \/ isExempt utils args issue = true)
         (issues_listForRepo client log page) ->
  operationsLeft - 1 <> 0 ->
  processIssues (S fuel) args operationsLeft page log
  = processIssues fuel args (operationsLeft - 1) (page + 1)
      (log ++ [ListForRepo page]).
Proof.
  intros Hpage Hskip Hne. rewrite processIssues_page.
  apply Z.eqb_neq in Hne. rewrite Hne.
  rewrite (forIssues_passes_over args _ Hskip).
  destruct (issues_listForRepo client log page); [contradiction|reflexivity].
Qed.

End BudgetFacts.

(** ** The name sent when a label is removed *)

Ltac split_positive :=
  match goal with
  | p : positive |- _ => destruct p
  end.

Lemma hexDigit_unreserved (n : N) : uriUnreserved (hexDigit n) = true.
Proof.
  destruct n as [|p]; [reflexivity|].
  do 4 (try split_positive); reflexivity.
Qed.

Lemma digitValue_hexDigit (n : N) :
  (n < 16)%N -> digitValue (hexDigit n) = Some (Z.of_N n).
Proof.
  intros Hn. destruct n as [|p]; [reflexivity|].
  do 4 (try split_positive); try reflexivity; lia.
Qed.

Lemma hexDigit_inj (n m : N) :
  (n < 16)%N -> (m < 16)%N -> hexDigit n = hexDigit m -> n = m.
Proof.
  intros Hn Hm Heq.
  pose proof (digitValue_hexDigit n Hn) as H1.
  pose proof (digitValue_hexDigit m Hm) as H2.
  rewrite Heq, H2 in H1. injection H1 as H1. lia.
Qed.

Lemma encodeURIComponent_characters (s : string) :
  Forall (fun c => uriUnreserved c = true \/ c = "%"%char)
         (characters (encodeURIComponent s)).
Proof.
  induction s as [|c s IH]; [constructor|].
  simpl. destruct (uriUnreserved c) eqn:Hc; simpl.
  - constructor; auto.
  - repeat (constructor; [auto using hexDigit_unreserved|]). exact IH.
Qed.

Lemma encodeURIComponent_inj (s1 : string) :
  forall s2, encodeURIComponent s1 = encodeURIComponent s2 -> s1 = s2.
Proof.
  induction s1 as [|c1 s1 IH]; intros [|c2 s2]; simpl.
  - reflexivity.
  - destruct (uriUnreserved c2); discriminate.
  - destruct (uriUnreserved c1); discriminate.
  - destruct (uriUnreserved c1) eqn:H1, (uriUnreserved c2) eqn:H2; intros Heq.
    + injection Heq as -> Heq. f_equal. apply IH, Heq.
    + injection Heq as -> _. discriminate H1.
    + injection Heq as <- _. discriminate H2.
    + injection Heq as Hhi Hlo Heq.
      pose proof (N_ascii_bounded c1) as B1. pose proof (N_ascii_bounded c2) as B2.
      apply hexDigit_inj in Hhi;
        [|apply N.Div0.div_lt_upper_bound; lia|apply N.Div0.div_lt_upper_bound; lia].
      apply hexDigit_inj in Hlo;
        [|apply N.mod_lt; discriminate|apply N.mod_lt; discriminate].
      assert (Hn : N_of_ascii c1 = N_of_ascii c2).
      { rewrite (N.div_mod (N_of_ascii c1) 16), (N.div_mod (N_of_ascii c2) 16)
          by discriminate.
        rewrite Hhi, Hlo. reflexivity. }
      f_equal; [|apply IH, Heq].
      rewrite <- (ascii_N_embedding c1), <- (ascii_N_embedding c2), Hn. reflexivity.
Qed.

(** X14.  In normal mode the removal of a label sends one request whose name
    is made of unreserved characters and percent signs only: a question
    mark, a slash, a space or a hash in the label never reaches the path of
    the request (line 208).  Labels made of unreserved characters only are
    sent as they are. *)
Theorem removed_label_name_is_escaped (issue : Issue) (label : string)
    (log : list Call) :
  exists name,
    removeStaleLabel issue label false log
    = (1, log ++ [RemoveLabel (number issue) name])
    /\ Forall (fun c => uriUnreserved c = true \/ c = "%"%char) (characters name)
    /\ (forall c, In c ["?"; "/"; " "; "#"; "&"]%char -> ~ In c (characters name))
    /\ (forallb uriUnreserved (characters label) = true -> name = label).
Proof.
  exists (encodeURIComponent label).
  split; [reflexivity|]. split; [apply encodeURIComponent_characters|]. split.
  - intros c Hc Hin.
    pose proof (encodeURIComponent_characters label) as Hsafe.
    rewrite Forall_forall in Hsafe. specialize (Hsafe c Hin).
    simpl in Hc.
    repeat (destruct Hc as [<-|Hc]; [destruct Hsafe; discriminate|]).
    contradiction.
  - induction label as [|c label IH]; [reflexivity|].
    simpl. intros Hall. apply andb_true_iff in Hall. destruct Hall as [Hc Hall].
    rewrite Hc, (IH Hall). reflexivity.
Qed.

(** X15.  Two different labels are never removed under the same name: the
    requests [removeStaleLabel] sends for different labels differ. *)
Theorem removed_label_name_determines_label (issue : Issue)
    (label1 label2 : string) (log : list Call) :
  label1 <> label2 ->
  removeStaleLabel issue label1 false log <> removeStaleLabel issue label2 false log.
Proof.
  unfold removeStaleLabel, bind, await, ret. simpl. intros Hne Heq.
  injection Heq as Heq. apply app_inv_head in Heq. injection Heq as Heq.
  apply Hne, encodeURIComponent_inj, Heq.
Qed.

(** ** Validation and the run *)

Section ValidationFacts.

Variable client : Client.
Variable utils : Utils.
Variable inputs : Inputs.

Local Abbreviation getAndValidateArgs := (getAndValidateArgs utils inputs).
Local Abbreviation run := (run client utils inputs).

Ltac split_inputs :=
  repeat (match goal with
          | |- context [if ?b then _ else _] => destruct b eqn:?
          | |- context [match parseInt ?s with _ => _ end] =>
              destruct (parseInt s) eqn:?
          end; simpl in *; try discriminate).

Ltac report_input :=
  split; [reflexivity|];
  split; [repeat (apply Forall_cons; [assumption || congruence|]); apply Forall_nil|];
  split; [assumption|reflexivity].

(** X16.  Validation succeeds exactly when the token and the two stale
    labels are supplied and the three numeric inputs parse to a number; the
    other inputs (the messages, the exempt labels, the dry-run flag) are
    never a reason to fail. *)
Theorem validation_succeeds_exactly_when :
  (exists args, getAndValidateArgs = Ok args)
  <-> (truthy (inputs "repo-token") = true
       /\ truthy (inputs "stale-issue-label") = true
       /\ truthy (inputs "stale-pr-label") = true
       /\ parseInt (inputs "days-before-stale") <> None
       /\ parseInt (inputs "days-before-close") <> None
       /\ parseInt (inputs "operations-per-run") <> None).
Proof.
  split.
  - intros (args & Hok). revert Hok.
    rewrite <- (parseInt_trim (inputs "days-before-stale")),
            <- (parseInt_trim (inputs "days-before-close")),
            <- (parseInt_trim (inputs "operations-per-run")).
    unfold getAndValidateArgs, getInput, isNaN. simpl.
    split_inputs; intros _;
      repeat match goal with
             | H : negb _ = false |- _ => apply negb_false_iff in H
             end;
      repeat split; auto; congruence.
  - intros (Htoken & Hlabel & Hprlabel & Hstale & Hclose & Hops).
    destruct (parseInt (inputs "days-before-stale")) as [a|] eqn:Ea; [|congruence].
    destruct (parseInt (inputs "days-before-close")) as [b|] eqn:Eb; [|congruence].
    destruct (parseInt (inputs "operations-per-run")) as [c|] eqn:Ec; [|congruence].
    rewrite <- parseInt_trim in Ea, Eb, Ec.
    eexists.
    apply (getAndValidateArgs_accepts utils inputs a b c); assumption.
Qed.

(** X17.  When a required input is not supplied, the run fails before any
    request with the message naming the first missing one, in the order the
    source reads them; an unparsable number is only reported once all six
    required inputs are there. *)
Theorem missing_required_input_is_reported_first (fuel : nat) (name : string) :
  In name requiredInputs ->
  truthy (inputs name) = false ->
  exists before missing after,
    requiredInputs = before ++ missing :: after
    /\ Forall (fun n => truthy (inputs n) = true) before
    /\ truthy (inputs missing) = false
    /\ run fuel
       = (Failed ("Input required and not supplied: " ++ missing)%string, []).
Proof.
  intros Hin Hmissing. unfold run, getAndValidateArgs, getInput. simpl.
  destruct (truthy (inputs "repo-token")) eqn:H1; simpl.
  2: { exists [], "repo-token"; eexists; report_input. }
  destruct (truthy (inputs "days-before-stale")) eqn:H2; simpl.
  2: { exists ["repo-token"], "days-before-stale"; eexists;
       repeat split; auto. }
  destruct (truthy (inputs "days-before-close")) eqn:H3; simpl.
  2: { exists ["repo-token"; "days-before-stale"], "days-before-close"; eexists;
       repeat split; auto. }
  destruct (truthy (inputs "stale-issue-label")) eqn:H4; simpl.
  2: { exists ["repo-token"; "days-before-stale"; "days-before-close"],
         "stale-issue-label"; eexists; report_input. }
  destruct (truthy (inputs "stale-pr-label")) eqn:H5; simpl.
  2: { exists ["repo-token"; "days-before-stale"; "days-before-close";
               "stale-issue-label"], "stale-pr-label"; eexists;
       repeat split; auto. }
  destruct (truthy (inputs "operations-per-run")) eqn:H6; simpl.
  2: { exists ["repo-token"; "days-before-stale"; "days-before-close";
               "stale-issue-label"; "stale-pr-label"], "operations-per-run", [].
       report_input. }
  exfalso. simpl in Hin.
  repeat (destruct Hin as [<-|Hin]; [congruence|]). contradiction.
Qed.

(** X18.  When all required inputs are supplied and some numeric input does
    not parse, the run fails before any request with the message naming the
    first unparsable one in the order days-before-stale, days-before-close,
    operations-per-run. *)
Theorem first_unparsable_number_is_reported (fuel : nat) (name : string) :
  Forall (fun n => truthy (inputs n) = true) requiredInputs ->
  In name numberInputs ->
  parseInt (inputs name) = None ->
  exists before unparsable after,
    numberInputs = before ++ unparsable :: after
    /\ Forall (fun n => parseInt (inputs n) <> None) before
    /\ parseInt (inputs unparsable) = None
    /\ run fuel
       = (Failed ("input " ++ unparsable ++ " did not parse to a valid integer")%string,
          []).
Proof.
  intros Hall Hin Hnan. unfold requiredInputs in Hall.
  repeat match goal with
         | H : Forall _ (_ :: _) |- _ => inversion H; subst; clear H
         end.
  unfold run, getAndValidateArgs, getInput, isNaN. simpl.
  repeat match goal with
         | H : truthy _ = true |- _ => rewrite H; clear H
         end.
  simpl. rewrite !parseInt_trim.
  destruct (parseInt (inputs "days-before-stale")) eqn:E1; simpl.
  2: { exists [], "days-before-stale"; eexists; report_input. }
  destruct (parseInt (inputs "days-before-close")) eqn:E2; simpl.
  2: { exists ["days-before-stale"], "days-before-close"; eexists;
       report_input. }
  destruct (parseInt (inputs "operations-per-run")) eqn:E3; simpl.
  2: { exists ["days-before-stale"; "days-before-close"], "operations-per-run", [].
       report_input. }
  exfalso. simpl in Hin.
  repeat (destruct Hin as [<-|Hin]; [congruence|]). contradiction.
Qed.

(** X19.  The whole run on valid inputs with a budget of at least 1, as far
    as no remote call fails: with fuel for as many pages as the budget it
    ends in success (exit status 0); its first request is the fetch of page
    1; it sends no more mutations than the configured budget and at most
    three requests more than the budget in all. *)
Theorem valid_run_respects_budget (fuel : nat) (stale close operations : Z) :
  truthy (inputs "repo-token") = true ->
  truthy (inputs "stale-issue-label") = true ->
  truthy (inputs "stale-pr-label") = true ->
  parseInt (inputs "days-before-stale") = Some stale ->
  parseInt (inputs "days-before-close") = Some close ->
  parseInt (inputs "operations-per-run") = Some operations ->
  1 <= operations ->
  (Z.to_nat operations <= fuel)%nat ->
  exists rest,
    run fuel = (Succeeded, ListForRepo 1 :: rest)
    /\ exitCode (fst (run fuel)) = Some 0
    /\ Z.of_nat (List.length (mutations (snd (run fuel)))) <= operations
    /\ Z.of_nat (List.length (snd (run fuel))) <= operations + 3.
Proof.
  intros Htoken Hlabel Hprlabel Hstale Hclose Hops Hpos Hfuel.
  rewrite <- parseInt_trim in Hstale, Hclose, Hops.
  pose proof (getAndValidateArgs_accepts utils inputs stale close operations
                Htoken Hlabel Hprlabel Hstale Hclose Hops) as Hargs.
  unfold run. rewrite Hargs.
  assert (Hfuel0 : exists fuel', fuel = S fuel').
  { destruct fuel as [|fuel']; [simpl in Hfuel; lia|]. exists fuel'. reflexivity. }
  destruct Hfuel0 as (fuel' & ->).
  match goal with
  | |- context [processIssues client utils (S fuel') ?a ?o 1 []] =>
      destruct (processIssues_requests client utils a (S fuel') o 1 []
                  Hpos Hfuel) as (v & new & Hrun & _ & Hmut & Hlen);
      destruct (processIssues_begins_with_fetch client utils a fuel' o 1 [])
        as (rest & Hfirst);
      rewrite Hrun in *
  end.
  simpl in *. subst new.
  exists rest. repeat split; auto.
Qed.

End ValidationFacts.

(** ** The further theorems at work *)

Section FurtherExamples.

Local Abbreviation remote := (Sample.client Cases.repository).
Local Abbreviation helpers := (Sample.utils Cases.repository).

(** Item 8, stale for 5 days and quiet, is looked up and kept. *)
Lemma recently_stale_item_is_kept_witness :
  truthy (staleMessageOf (Sample.args false 10) Cases.issue8) = true
  /\ isExempt helpers (Sample.args false 10) Cases.issue8 = false
  /\ isLabeled helpers Cases.issue8
       (staleLabelOf (Sample.args false 10) Cases.issue8) = true
  /\ filter isUserComment
       (commentsSince remote helpers (Sample.args false 10) Cases.issue8
          [ListForRepo 1]) = []
  /\ appliedLabelBefore helpers
       (staleLabelDate helpers (Sample.args false 10) Cases.issue8 [ListForRepo 1])
       (daysBeforeClose (Sample.args false 10)) = false
  /\ loopBody remote helpers (Sample.args false 10) 9 Cases.issue8 [ListForRepo 1]
     = (BudgetTest 7,
        [ListForRepo 1;
         LastAppliedStaleLabel 8 "stale"; ListComments 8 (Sample.day 95)]).
Proof.
  repeat (split; [reflexivity|]).
  exact (recently_stale_item_is_kept remote helpers (Sample.args false 10) 9
           Cases.issue8 [ListForRepo 1] eq_refl eq_refl eq_refl eq_refl eq_refl).
Defined.

(** Item 9, updated the day before, is left untouched. *)
Lemma active_item_is_untouched_witness :
  truthy (staleMessageOf (Sample.args false 10) Cases.issue9) = true
  /\ isExempt helpers (Sample.args false 10) Cases.issue9 = false
  /\ isLabeled helpers Cases.issue9
       (staleLabelOf (Sample.args false 10) Cases.issue9) = false
  /\ wasLastUpdatedBefore helpers Cases.issue9
       (daysBeforeStale (Sample.args false 10)) = false
  /\ loopBody remote helpers (Sample.args false 10) 9 Cases.issue9 [ListForRepo 1]
     = (BudgetTest 9, [ListForRepo 1]).
Proof.
  repeat (split; [reflexivity|]).
  exact (active_item_is_untouched remote helpers (Sample.args false 10) 9
           Cases.issue9 [ListForRepo 1] eq_refl eq_refl eq_refl eq_refl).
Defined.

(** Item 6, a stale pull request past the close threshold, is skipped when
    pull requests have no stale message. *)
Lemma item_without_message_is_skipped_witness :
  truthy (staleMessageOf (Sample.argsWithoutPrMessage false 10) Sample.issue6)
  = false
  /\ loopBody (Sample.client Sample.everything) (Sample.utils Sample.everything)
       (Sample.argsWithoutPrMessage false 10) 9 Sample.issue6 [ListForRepo 1]
     = (ContinueStmt, [ListForRepo 1])
  /\ forIssues (Sample.client Sample.everything) (Sample.utils Sample.everything)
       (Sample.argsWithoutPrMessage false 10) [Sample.issue6; Sample.issue1] 9
       [ListForRepo 1]
     = forIssues (Sample.client Sample.everything) (Sample.utils Sample.everything)
         (Sample.argsWithoutPrMessage false 10) [Sample.issue1] 9 [ListForRepo 1].
Proof.
  split; [reflexivity|].
  exact (item_without_message_is_skipped
           (Sample.client Sample.everything) (Sample.utils Sample.everything)
           (Sample.argsWithoutPrMessage false 10) 9 Sample.issue6 [Sample.issue1]
           [ListForRepo 1] eq_refl).
Defined.

(** A budget of 2 on a page holding item 3: the bound of three requests
    over the budget is reached. *)
Lemma positive_budget_bounds_requests_witness :
  1 <= 2
  /\ (Z.to_nat 2 <= 2)%nat
  /\ (exists v new,
        processIssues (Sample.client (Sample.repository [[Sample.issue3]]))
                      (Sample.utils (Sample.repository [[Sample.issue3]]))
                      2 (Sample.args false 2) 2 1 []
        = (Some v, [] ++ new)
        /\ 0 <= v <= 2 - 1
        /\ Z.of_nat (List.length (mutations new)) <= 2
        /\ Z.of_nat (List.length new) <= 2 + 3)
  /\ List.length
       (snd (processIssues (Sample.client (Sample.repository [[Sample.issue3]]))
                           (Sample.utils (Sample.repository [[Sample.issue3]]))
                           2 (Sample.args false 2) 2 1 [])) = 5%nat.
Proof.
  assert (H1 : 1 <= 2) by lia.
  assert (H2 : (Z.to_nat 2 <= 2)%nat) by (simpl; lia).
  split; [exact H1|]. split; [exact H2|]. split; [|reflexivity].
  exact (positive_budget_bounds_requests
           (Sample.client (Sample.repository [[Sample.issue3]]))
           (Sample.utils (Sample.repository [[Sample.issue3]]))
           (Sample.args false 2) 2 2 1 [] H1 H2).
Defined.

Lemma sample_pages_end (pages : list (list Issue)) (log : list Call) (page : Z) :
  Z.of_nat (List.length pages) + 1 <= page ->
  issues_listForRepo (Sample.client (Sample.repository pages)) log page = [].
Proof.
  intros Hpage. simpl.
  destruct (page <=? 0) eqn:Hle; [reflexivity|].
  apply nth_overflow. simpl. lia.
Qed.

(** A repository of one page, all of it pinned, and a budget of -5: the run
    returns once it has fetched the empty second page. *)
Lemma run_returns_on_finite_repository_witness :
  (forall log page, 2 <= page ->
     issues_listForRepo (Sample.client (Sample.repository [[Sample.issue4]]))
       log page = [])
  /\ (Z.to_nat (2 - 1) < 2)%nat
  /\ exists v,
       fst (processIssues (Sample.client (Sample.repository [[Sample.issue4]]))
                          (Sample.utils (Sample.repository [[Sample.issue4]]))
                          2 (Sample.args false (-5)) (-5) 1 []) = Some v.
Proof.
  assert (H1 : forall log page, 2 <= page ->
            issues_listForRepo (Sample.client (Sample.repository [[Sample.issue4]]))
              log page = [])
    by (intros log page Hpage; apply sample_pages_end; simpl; lia).
  assert (H2 : (Z.to_nat (2 - 1) < 2)%nat) by (simpl; lia).
  split; [exact H1|]. split; [exact H2|].
  exact (run_returns_on_finite_repository
           (Sample.client (Sample.repository [[Sample.issue4]]))
           (Sample.utils (Sample.repository [[Sample.issue4]]))
           (Sample.args false (-5)) 2 H1 2 (-5) 1 [] H2).
Defined.

(** A page holding the pinned item 4 only, met with a budget of 0. *)
Lemma passed_over_page_costs_one_witness :
  issues_listForRepo (Sample.client (Sample.repository [[Sample.issue4]])) [] 1 <> []
  /\ Forall (fun issue =>
               truthy (staleMessageOf (Sample.args false 0) issue) = false
               \/ isExempt (Sample.utils (Sample.repository [[Sample.issue4]]))
                    (Sample.args false 0) issue = true)
            (issues_listForRepo (Sample.client (Sample.repository [[Sample.issue4]]))
               [] 1)
  /\ 0 - 1 <> 0
  /\ processIssues (Sample.client (Sample.repository [[Sample.issue4]]))
                   (Sample.utils (Sample.repository [[Sample.issue4]]))
                   2 (Sample.args false 0) 0 1 []
     = processIssues (Sample.client (Sample.repository [[Sample.issue4]]))
                     (Sample.utils (Sample.repository [[Sample.issue4]]))
                     1 (Sample.args false 0) (0 - 1) (1 + 1) ([] ++ [ListForRepo 1]).
Proof.
  assert (H1 : issues_listForRepo
                 (Sample.client (Sample.repository [[Sample.issue4]])) [] 1 <> [])
    by (simpl; discriminate).
  assert (H2 : Forall (fun issue =>
               truthy (staleMessageOf (Sample.args false 0) issue) = false
               \/ isExempt (Sample.utils (Sample.repository [[Sample.issue4]]))
                    (Sample.args false 0) issue = true)
            (issues_listForRepo (Sample.client (Sample.repository [[Sample.issue4]]))
               [] 1))
    by (simpl; constructor; [right; reflexivity|constructor]).
  assert (H3 : 0 - 1 <> 0) by lia.
  split; [exact H1|]. split; [exact H2|]. split; [exact H3|].
  exact (passed_over_page_costs_one
           (Sample.client (Sample.repository [[Sample.issue4]]))
           (Sample.utils (Sample.repository [[Sample.issue4]]))
           (Sample.args false 0) 1 0 1 [] H1 H2 H3).
Defined.

(** The two stale labels of the sample configuration are removed under
    different names. *)
Lemma removed_label_name_determines_label_witness :
  "stale" <> "stale pr?"
  /\ removeStaleLabel Sample.issue2 "stale" false []
     <> removeStaleLabel Sample.issue2 "stale pr?" false [].
Proof.
  assert (H : "stale" <> "stale pr?") by discriminate.
  split; [exact H|].
  exact (removed_label_name_determines_label Sample.issue2 "stale" "stale pr?" [] H).
Defined.

(** Without a token the run fails at the first input it reads. *)
Lemma missing_required_input_is_reported_first_witness :
  In "repo-token" requiredInputs
  /\ truthy (Cases.inputsWithoutToken "repo-token") = false
  /\ exists before missing after,
       requiredInputs = before ++ missing :: after
       /\ Forall (fun n => truthy (Cases.inputsWithoutToken n) = true) before
       /\ truthy (Cases.inputsWithoutToken missing) = false
       /\ run (Sample.client Sample.everything) (Sample.utils Sample.everything)
              Cases.inputsWithoutToken 10
          = (Failed ("Input required and not supplied: " ++ missing)%string, []).
Proof.
  assert (H : In "repo-token" requiredInputs) by (simpl; auto).
  split; [exact H|]. split; [reflexivity|].
  exact (missing_required_input_is_reported_first
           (Sample.client Sample.everything) (Sample.utils Sample.everything)
           Cases.inputsWithoutToken 10 "repo-token" H eq_refl).
Defined.

(** With both day counts in letters, it is days-before-stale that is
    reported, whichever of the two one starts from. *)
Lemma first_unparsable_number_is_reported_witness :
  Forall (fun n => truthy (Cases.inputsWithDaysInLetters n) = true) requiredInputs
  /\ In "days-before-close" numberInputs
  /\ parseInt (Cases.inputsWithDaysInLetters "days-before-close") = None
  /\ exists before unparsable after,
       numberInputs = before ++ unparsable :: after
       /\ Forall (fun n => parseInt (Cases.inputsWithDaysInLetters n) <> None) before
       /\ parseInt (Cases.inputsWithDaysInLetters unparsable) = None
       /\ run (Sample.client Sample.everything) (Sample.utils Sample.everything)
              Cases.inputsWithDaysInLetters 10
          = (Failed ("input " ++ unparsable
                     ++ " did not parse to a valid integer")%string, []).
Proof.
  assert (H1 : Forall (fun n => truthy (Cases.inputsWithDaysInLetters n) = true)
                      requiredInputs)
    by (repeat (constructor; [reflexivity|]); constructor).
  assert (H2 : In "days-before-close" numberInputs) by (simpl; auto).
  split; [exact H1|]. split; [exact H2|]. split; [reflexivity|].
  exact (first_unparsable_number_is_reported
           (Sample.client Sample.everything) (Sample.utils Sample.everything)
           Cases.inputsWithDaysInLetters 10 "days-before-close" H1 H2 eq_refl).
Defined.

(** The sample inputs with a budget of 4 on the five sample items. *)
Lemma valid_run_respects_budget_witness :
  parseInt (Sample.inputs "4" "operations-per-run") = Some 4
  /\ 1 <= 4
  /\ (Z.to_nat 4 <= 4)%nat
  /\ exists rest,
       run (Sample.client Sample.everything) (Sample.utils Sample.everything)
           (Sample.inputs "4") 4
       = (Succeeded, ListForRepo 1 :: rest)
       /\ exitCode (fst (run (Sample.client Sample.everything)
                             (Sample.utils Sample.everything)
                             (Sample.inputs "4") 4)) = Some 0
       /\ Z.of_nat (List.length (mutations
            (snd (run (Sample.client Sample.everything)
                      (Sample.utils Sample.everything) (Sample.inputs "4") 4)))) <= 4
       /\ Z.of_nat (List.length
            (snd (run (Sample.client Sample.everything)
                      (Sample.utils Sample.everything) (Sample.inputs "4") 4)))
          <= 4 + 3.
Proof.
  assert (H1 : 1 <= 4) by lia.
  assert (H2 : (Z.to_nat 4 <= 4)%nat) by (simpl; lia).
  split; [reflexivity|]. split; [exact H1|]. split; [exact H2|].
  exact (valid_run_respects_budget
           (Sample.client Sample.everything) (Sample.utils Sample.everything)
           (Sample.inputs "4") 4 30 30 4
           eq_refl eq_refl eq_refl eq_refl eq_refl eq_refl H1 H2).
Defined.

End FurtherExamples.
